(** * PaddlePWA: the service worker's caching engine and the page-side manager

    A shallow embedding of [sw.js] (the intercepting service worker) and of
    the [PWAManager] class (the page-side companion), with the properties
    the design document states about them.

    Modelling conventions.
    - JavaScript strings are modelled as [string]; [String.prototype.includes]
      is substring search, [===] / [!==] on strings is [String.eqb].
    - A [Cache] maps request URLs to responses; the [CacheStorage] is the list
      of named caches in creation order, which is the order [caches.keys()]
      enumerates and [caches.match] searches.
    - Cache Store operations are taken to succeed and to take no time; a
      network fetch takes the time the network says it takes.  The world
      carries a clock (milliseconds) and a log of the Cache Store, Network
      Fetcher and platform operations, in the order they are called.
      Console output is not modelled.
    - A [Response] is an immutable value, so [clone()] is the identity.
    - An [async] function is a computation in the monad [M]; the world it
      returns is the one reached when its pending promise reactions have run,
      and the clock it returns is the time at which its own promise settles. *)

From stdpp Require Import base option list strings pretty gmap.
From Stdlib Require Import NArith.

Local Open Scope N_scope.

(** ** Strings *)

Module Str.

(** [s.startsWith(p)] *)
Fixpoint starts_with (s p : string) {struct p} : bool :=
  match p, s with
  | EmptyString, _ => true
  | String _ _, EmptyString => false
  | String a p', String b s' => Ascii.eqb a b && starts_with s' p'
  end.

(** [s.includes(t)]: [t] occurs in [s] at some position. *)
Fixpoint includes (s t : string) : bool :=
  starts_with s t ||
  match s with
  | EmptyString => false
  | String _ s' => includes s' t
  end.

End Str.

(** ** Configuration constants ([sw.js], lines 1-23) *)

Definition CACHE_NAME : string := "padel-tournament-v2.1.0".
Definition STATIC_CACHE : string := "padel-static-v2.1.0".
Definition DYNAMIC_CACHE : string := "padel-dynamic-v2.1.0".
Definition OFFLINE_PAGE : string := "/offline.html".

Definition STATIC_ASSETS : list string :=
  [ "/";
    "/index.html";
    "/leaderboard.html";
    "/manifest.json";
    "/offline.html";
    "https://cdnjs.cloudflare.com/ajax/libs/font-awesome/6.0.0-beta3/css/all.min.css";
    "https://www.gstatic.com/firebasejs/9.22.0/firebase-app.js";
    "https://www.gstatic.com/firebasejs/9.22.0/firebase-database.js" ].

Definition DYNAMIC_ASSETS : list string :=
  [ "https://www.gstatic.com/firebasejs/";
    "https://cdnjs.cloudflare.com/";
    "https://fonts.googleapis.com/";
    "https://fonts.gstatic.com/" ].

(** Timer of the network-first race, in ms. *)
Definition NETWORK_TIMEOUT : N := 5000.

(** ** Requests and responses *)

Record Request := mkRequest {
  method : string;
  url : string;
  destination : string;
  mode : string;
  payload : string
}.

Record Response := mkResponse {
  status : N;
  body : string;
  headers : list (string * string)
}.

(** [response.ok]: the status is in the range 200-299. *)
Definition ok (r : Response) : bool :=
  (200 <=? status r) && (status r <=? 299).

(** [response.clone()] *)
Definition clone (r : Response) : Response := r.

(** [new Response("Offline", { status: 503 })] *)
Definition offline_response : Response :=
  {| status := 503; body := "Offline"; headers := [] |}.

(** [new Response("App is offline", { status: 503, headers: {...} })] *)
Definition offline_html_response : Response :=
  {| status := 503; body := "App is offline";
     headers := [("Content-Type", "text/html")] |}.

(** ** The routing rules of the fetch handler ([sw.js], lines 88-114) *)

Inductive Strategy :=
| CACHE_FIRST
| NETWORK_FIRST
| STALE_WHILE_REVALIDATE
| NETWORK_FIRST_WITH_OFFLINE.

(** The branch the handler takes; [None] is the early [return] that leaves
    the request to the browser. *)
Definition route (request : Request) : option Strategy :=
  if negb (String.eqb (method request) "GET") then None
  else if existsb (fun asset => Str.includes (url request) asset) STATIC_ASSETS
  then Some CACHE_FIRST
  else if existsb (fun pattern => Str.includes (url request) pattern) DYNAMIC_ASSETS
  then Some STALE_WHILE_REVALIDATE
  else if Str.includes (url request) "firebase" || Str.includes (url request) "googleapis"
  then Some NETWORK_FIRST
  else if String.eqb (destination request) "document"
  then Some NETWORK_FIRST_WITH_OFFLINE
  else Some NETWORK_FIRST.

(** ** The world: Cache Store, clock and operation log *)

(** Cache entries are keyed by the request URL. *)
Definition CacheStorage : Type := list (string * gmap string Response).

Inductive Event :=
| EvFetch (method url : string)
| EvCachesOpen (name : string)
| EvCachesMatch (url : string)
| EvCacheMatch (name url : string)
| EvCachePut (name url : string)
| EvCachesKeys
| EvCachesDelete (name : string)
| EvClientsClaim
| EvSkipWaiting
| EvSyncRegister (tag : string)
| EvBroadcast (type data : string).

Record World := mkWorld {
  caches : CacheStorage;
  now : N;
  log : list Event
}.

Definition with_caches (cs : CacheStorage) (w : World) : World :=
  {| caches := cs; now := now w; log := log w |}.
Definition with_now (t : N) (w : World) : World :=
  {| caches := caches w; now := t; log := log w |}.
Definition record (e : Event) (w : World) : World :=
  {| caches := caches w; now := now w; log := log w ++ [e] |}.

(** *** Cache Store primitives *)

Module Store.

(** The cache of that name, if there is one. *)
Fixpoint find (name : string) (cs : CacheStorage) : option (gmap string Response) :=
  match cs with
  | [] => None
  | (n, c) :: rest => if String.eqb n name then Some c else find name rest
  end.

(** [caches.open(name)]: the cache is created, last in order, when absent. *)
Definition open (name : string) (cs : CacheStorage) : CacheStorage :=
  match find name cs with
  | Some _ => cs
  | None => cs ++ [(name, ∅)]
  end.

(** [cache.match(request)] on the cache of that name. *)
Definition lookup (name url : string) (cs : CacheStorage) : option Response :=
  c ← find name cs; c !! url.

(** [caches.match(request)]: the first hit, caches taken in creation order. *)
Fixpoint match_any (url : string) (cs : CacheStorage) : option Response :=
  match cs with
  | [] => None
  | (_, c) :: rest =>
      match c !! url with
      | Some r => Some r
      | None => match_any url rest
      end
  end.

(** [cache.put(request, response)]: the entry is overwritten. *)
Fixpoint put (name url : string) (r : Response) (cs : CacheStorage) : CacheStorage :=
  match cs with
  | [] => []
  | (n, c) :: rest =>
      if String.eqb n name then (n, <[url := r]> c) :: rest
      else (n, c) :: put name url r rest
  end.

(** [caches.keys()] *)
Definition keys (cs : CacheStorage) : list string := cs.*1.

(** [caches.delete(name)] *)
Definition delete (name : string) (cs : CacheStorage) : CacheStorage :=
  List.filter (fun nc => negb (String.eqb nc.1 name)) cs.

End Store.

(** ** Promises and the monad of [async] functions *)

Inductive Completion (A : Type) :=
| Normal (a : A)
| Throw (reason : string).
Arguments Normal {A} a.
Arguments Throw {A} reason.

(** A promise is described by the time at which it settles and by how:
    [Normal] is fulfilment, [Throw] rejection. *)
Record Promise (A : Type) := mkPromise {
  settles_at : N;
  settled : Completion A
}.
Arguments mkPromise {A} settles_at settled.
Arguments settles_at {A} p.
Arguments settled {A} p.

Definition M (A : Type) : Type := World → Completion A * World.

#[global] Instance M_ret : MRet M := λ A a w, (Normal a, w).
#[global] Instance M_bind : MBind M := λ A B f m w,
  match m w with
  | (Normal a, w') => f a w'
  | (Throw e, w') => (Throw e, w')
  end.

(** [throw new Error(reason)] *)
Definition throw {A} (reason : string) : M A := λ w, (Throw reason, w).

(** [try { body } catch (error) { handler(error) }] *)
Definition try_catch {A} (body : M A) (handler : string → M A) : M A := λ w,
  match body w with
  | (Normal a, w') => (Normal a, w')
  | (Throw e, w') => handler e w'
  end.

(** [await p]: execution resumes when [p] has settled. *)
Definition await {A} (p : Promise A) : M A := λ w,
  (settled p, with_now (N.max (now w) (settles_at p)) w).

(** A promise that an operation completing at once hands back. *)
Definition resolved {A} (a : A) : M (Promise A) := λ w,
  (Normal (mkPromise (now w) (Normal a)), w).

(** [p.then(f)]: the reaction runs when [p] fulfils; the caller goes on
    at its own time. *)
Definition promise_then {A B} (p : Promise A) (f : A → M B) : M (Promise B) := λ w,
  match settled p with
  | Normal a =>
      let '(c, w') := f a (with_now (N.max (now w) (settles_at p)) w) in
      (Normal (mkPromise (now w') c), with_now (now w) w')
  | Throw e => (Normal (mkPromise (N.max (now w) (settles_at p)) (Throw e)), w)
  end.

(** [p.catch(h)] *)
Definition promise_catch {A} (p : Promise A) (h : string → M A) : M (Promise A) := λ w,
  match settled p with
  | Normal a => (Normal p, w)
  | Throw e =>
      let '(c, w') := h e (with_now (N.max (now w) (settles_at p)) w) in
      (Normal (mkPromise (now w') c), with_now (now w) w')
  end.

(** [Promise.race([p, q])]: the one that settles first; array order
    decides between two that settle together. *)
Definition promise_race {A} (p q : Promise A) : Promise A :=
  if settles_at p <=? settles_at q then p else q.

(** [new Promise((_, reject) => setTimeout(() => reject(new Error(reason)), ms))] *)
Definition reject_after {A} (ms : N) (reason : string) : M (Promise A) := λ w,
  (Normal (mkPromise (now w + ms) (Throw reason)), w).


(** ** The platform operations the worker calls *)

(** What the Network Fetcher does with a request: after [latency] ms the
    fetch promise fulfils with a response or rejects (transport failure). *)
Inductive NetResult :=
| Responds (r : Response)
| Fails.

Record Reply := mkReply {
  latency : N;
  outcome : NetResult
}.

Definition Network : Type := Request → Reply.

(** [fetch(request)] *)
Definition fetch (net : Network) (request : Request) : M (Promise Response) := λ w,
  (Normal (mkPromise (now w + latency (net request))
             match outcome (net request) with
             | Responds r => Normal r
             | Fails => Throw "Failed to fetch"
             end),
   record (EvFetch (method request) (url request)) w).

(** [caches.match(request)] *)
Definition caches_match (url : string) : M (Promise (option Response)) := λ w,
  resolved (Store.match_any url (caches w)) (record (EvCachesMatch url) w).

(** [caches.open(name)]; the cache object is designated by its name. *)
Definition caches_open (name : string) : M (Promise string) := λ w,
  resolved name (record (EvCachesOpen name) (with_caches (Store.open name (caches w)) w)).

(** [cache.match(request)] *)
Definition cache_match (cache url : string) : M (Promise (option Response)) := λ w,
  resolved (Store.lookup cache url (caches w)) (record (EvCacheMatch cache url) w).

(** [cache.put(request, response)] *)
Definition cache_put (cache url : string) (r : Response) : M (Promise unit) := λ w,
  resolved () (record (EvCachePut cache url) (with_caches (Store.put cache url r (caches w)) w)).

(** [caches.keys()] *)
Definition caches_keys : M (Promise (list string)) := λ w,
  resolved (Store.keys (caches w)) (record EvCachesKeys w).

(** [caches.delete(name)] *)
Definition caches_delete (name : string) : M (Promise unit) := λ w,
  resolved () (record (EvCachesDelete name) (with_caches (Store.delete name (caches w)) w)).

(** [self.clients.claim()] *)
Definition clients_claim : M (Promise unit) := λ w,
  resolved () (record EvClientsClaim w).

(** [self.registration.sync.register(tag)] *)
Definition sync_register (tag : string) : M (Promise unit) := λ w,
  resolved () (record (EvSyncRegister tag) w).

(** [broadcastMessage({ type, data })] ([sw.js], lines 359-365) *)
Definition broadcastMessage (type data : string) : M unit := λ w,
  (Normal (), record (EvBroadcast type data) w).

(** ** JavaScript values where the code relies on truthiness *)

Inductive Value :=
| VUndefined
| VResponse (r : Response)
| VPromise (p : Promise (option Response)).

Definition of_option (o : option Response) : Value :=
  match o with
  | Some r => VResponse r
  | None => VUndefined
  end.

(** Objects, promises included, are truthy; [undefined] is not. *)
Definition truthy (v : Value) : bool :=
  match v with
  | VUndefined => false
  | VResponse _ | VPromise _ => true
  end.

(** [a || b] *)
Definition js_or (a b : Value) : Value := if truthy a then a else b.

(** [return v] in an [async] function: the function's promise takes the
    value, or follows the promise, it is given.  [None] is [undefined]. *)
Definition async_return (v : Value) : M (option Response) :=
  match v with
  | VUndefined => mret None
  | VResponse r => mret (Some r)
  | VPromise p => await p
  end.

(** ** The four caching strategies ([sw.js], lines 117-198) *)

Section Strategies.

Variable net : Network.

Definition cacheFirst (request : Request) : M (option Response) :=
  try_catch
    (cachedResponse ← caches_match (url request) ≫= await;
     match cachedResponse with
     | Some r => mret (Some r)
     | None =>
         networkResponse ← fetch net request ≫= await;
         (if ok networkResponse then
            cache ← caches_open STATIC_CACHE ≫= await;
            cache_put cache (url request) (clone networkResponse);; mret ()
          else mret ());;
         mret (Some networkResponse)
     end)
    (λ error, mret (Some offline_response)).

Definition networkFirst (request : Request) : M (option Response) :=
  try_catch
    (fetching ← fetch net request;
     timer ← reject_after NETWORK_TIMEOUT "Network timeout";
     networkResponse ← await (promise_race fetching timer);
     (if ok networkResponse then
        cache ← caches_open DYNAMIC_CACHE ≫= await;
        cache_put cache (url request) (clone networkResponse);; mret ()
      else mret ());;
     mret (Some networkResponse))
    (λ error,
     cachedResponse ← caches_match (url request) ≫= await;
     mret (Some (default offline_response cachedResponse))).

Definition staleWhileRevalidate (request : Request) : M (option Response) :=
  cache ← caches_open DYNAMIC_CACHE ≫= await;
  cachedResponse ← cache_match cache (url request) ≫= await;
  fetching ← fetch net request;
  refreshed ← promise_then fetching (λ networkResponse,
    (if ok networkResponse then
       cache_put cache (url request) (clone networkResponse);; mret ()
     else mret ());;
    mret (Some networkResponse));
  fetchPromise ← promise_catch refreshed (λ _, mret cachedResponse);
  async_return (js_or (of_option cachedResponse) (VPromise fetchPromise)).

Definition networkFirstWithOffline (request : Request) : M (option Response) :=
  try_catch
    (networkResponse ← fetch net request ≫= await;
     (if ok networkResponse then
        cache ← caches_open DYNAMIC_CACHE ≫= await;
        cache_put cache (url request) (clone networkResponse);; mret ()
      else mret ());;
     mret (Some networkResponse))
    (λ error,
     cachedResponse ← caches_match (url request) ≫= await;
     match cachedResponse with
     | Some r => mret (Some r)
     | None =>
         if String.eqb (mode request) "navigate" then
           offlinePage ← caches_match OFFLINE_PAGE;
           async_return (js_or (VPromise offlinePage) (VResponse offline_html_response))
         else mret (Some offline_response)
     end).

Definition run_strategy (s : Strategy) : Request → M (option Response) :=
  match s with
  | CACHE_FIRST => cacheFirst
  | NETWORK_FIRST => networkFirst
  | STALE_WHILE_REVALIDATE => staleWhileRevalidate
  | NETWORK_FIRST_WITH_OFFLINE => networkFirstWithOffline
  end.

(** What the fetch handler does with the event: nothing (the browser
    handles the request itself), or [event.respondWith] with the
    strategy's promise, given here by how it settles. *)
Inductive FetchOutcome :=
| NotIntercepted
| RespondWith (s : Strategy) (c : Completion (option Response)).

Definition onFetch (request : Request) : World → FetchOutcome * World := λ w,
  match route request with
  | None => (NotIntercepted, w)
  | Some s => let '(c, w') := run_strategy s request w in (RespondWith s c, w')
  end.

End Strategies.

(** ** Activation: the sweep of superseded caches ([sw.js], lines 62-85) *)

(** [array.map(f)] followed by [Promise.all]: [f] is run on each element
    in order. *)
Fixpoint for_each {A} (f : A → M unit) (l : list A) : M unit :=
  match l with
  | [] => mret ()
  | x :: rest => f x;; for_each f rest
  end.

(** The test of line 73: the name is none of the three current ones. *)
Definition superseded (cacheName : string) : bool :=
  negb (String.eqb cacheName STATIC_CACHE)
  && negb (String.eqb cacheName DYNAMIC_CACHE)
  && negb (String.eqb cacheName CACHE_NAME).

(** Both elements of the array given to [Promise.all] are evaluated, that
    is [caches.keys()] and [self.clients.claim()] are called, before the
    listing settles and the reaction attached to it runs. *)
Definition onActivate : M unit :=
  listing ← caches_keys;
  claim ← clients_claim;
  sweep ← promise_then listing (λ cacheNames,
    for_each (λ cacheName,
      if superseded cacheName
      then caches_delete cacheName ≫= await
      else mret ()) cacheNames);
  await sweep;; await claim.

(** ** Background sync of the two data domains ([sw.js], lines 283-351) *)

(** The local data store behind [getStoredData]: the batch kept under a key,
    each record given by its JSON text. *)
Definition DataStore : Type := string → list string.

(** The body [getStoredData] has in the source resolves an empty array for
    every key, in place of the IndexedDB read it stands for. *)
Definition placeholder_store : DataStore := λ _, [].

Definition getStoredData (db : DataStore) (key : string) : M (Promise (list string)) :=
  resolved (db key).

(** [JSON.stringify(batch)] *)
Definition JSON_stringify (batch : list string) : string :=
  "[" +:+ String.concat "," batch +:+ "]".

(** [fetch(url, { method: "POST", headers, body })] *)
Definition post_request (url body : string) : Request :=
  {| method := "POST"; url := url; destination := EmptyString;
     mode := "cors"; payload := body |}.

Definition post (net : Network) (url body : string) : M (Promise Response) :=
  fetch net (post_request url body).

Section Sync.

Variable db : DataStore.
Variable net : Network.

Definition syncTournamentData : M unit :=
  try_catch
    (tournaments ← getStoredData db "tournaments" ≫= await;
     if (length tournaments =? 0)%nat then mret ()
     else
       response ← post net "/api/sync-tournaments" (JSON_stringify tournaments) ≫= await;
       if ok response then broadcastMessage "SYNC_SUCCESS" "tournaments"
       else throw ("Sync failed with status: " +:+ pretty (status response)))
    (λ error, sync_register "sync-tournament-data";; mret ()).

Definition syncPlayerData : M unit :=
  try_catch
    (players ← getStoredData db "players" ≫= await;
     if (length players =? 0)%nat then mret ()
     else
       response ← post net "/api/sync-players" (JSON_stringify players) ≫= await;
       if ok response then broadcastMessage "SYNC_SUCCESS" "players"
       else mret ())
    (λ error, sync_register "sync-player-data";; mret ()).

(** The [sync] listener ([sw.js], lines 201-209). *)
Definition onSync (tag : string) : M unit :=
  if String.eqb tag "sync-tournament-data" then syncTournamentData
  else if String.eqb tag "sync-player-data" then syncPlayerData
  else mret ().

End Sync.

(** ** The page-side manager ([PWAManager], install prompt) *)

Module PWA.

(** A [beforeinstallprompt] event as the manager uses it: what calling
    [prompt()] does and how the [userChoice] promise settles (on fulfilment,
    the [outcome] property of its value). *)
Record PromptEvent := mkPromptEvent {
  prompt : Completion unit;
  userChoice : Completion string
}.

(** The manager's fields, and the prompts the browser was asked to show. *)
Record Manager := mkManager {
  deferredPrompt : option PromptEvent;
  isInstalled : bool;
  shown : list PromptEvent
}.

Definition P (A : Type) : Type := Manager → Completion A * Manager.

#[global] Instance P_ret : MRet P := λ A a m, (Normal a, m).
#[global] Instance P_bind : MBind P := λ A B f c m,
  match c m with
  | (Normal a, m') => f a m'
  | (Throw e, m') => (Throw e, m')
  end.

(** [try { body } catch (error) { handler } finally { finalizer }] *)
Definition try_catch_finally {A} (body : P A) (handler : string → P A)
    (finalizer : P unit) : P A := λ m,
  let '(c, m1) :=
    match body m with
    | (Normal a, m') => (Normal a, m')
    | (Throw e, m') => handler e m'
    end in
  match finalizer m1 with
  | (Normal _, m2) => (c, m2)
  | (Throw e, m2) => (Throw e, m2)
  end.

(** [this.deferredPrompt = v] *)
Definition set_deferredPrompt (v : option PromptEvent) : P unit := λ m,
  (Normal (), {| deferredPrompt := v; isInstalled := isInstalled m; shown := shown m |}).

(** [e.prompt()] *)
Definition call_prompt (e : PromptEvent) : P unit := λ m,
  (prompt e, {| deferredPrompt := deferredPrompt m; isInstalled := isInstalled m;
                shown := shown m ++ [e] |}).

(** [await e.userChoice]: while the function is suspended the page's
    other listeners ([beforeinstallprompt], [appinstalled]) may run;
    [meanwhile] is what they do to the manager. *)
Definition await_userChoice (meanwhile : Manager → Manager) (e : PromptEvent) : P string := λ m,
  (userChoice e, meanwhile m).

Definition promptInstall (meanwhile : Manager → Manager) : P bool := λ m,
  match deferredPrompt m with
  | None => (Normal false, m)
  | Some e =>
      try_catch_finally
        (call_prompt e;;
         outcome ← await_userChoice meanwhile e;
         if String.eqb outcome "accepted" then mret true else mret false)
        (λ error, mret false)
        (set_deferredPrompt None) m
  end.

(** The browser facts [getInstallationStatus] reads. *)
Record Browser := mkBrowser {
  onLine : bool;
  notificationSupported : bool;
  notificationPermission : string
}.

Record InstallationStatus := mkStatus {
  st_isInstalled : bool;
  canInstall : bool;
  isOnline : bool;
  hasNotifications : bool
}.

Definition getInstallationStatus (b : Browser) (m : Manager) : InstallationStatus :=
  {| st_isInstalled := isInstalled m;
     canInstall := if deferredPrompt m is Some _ then true else false;
     isOnline := onLine b;
     hasNotifications :=
       notificationSupported b && String.eqb (notificationPermission b) "granted" |}.

End PWA.

(** The one cache generation a strategy stores into. *)
Definition own_cache (s : Strategy) : string :=
  match s with
  | CACHE_FIRST => STATIC_CACHE
  | NETWORK_FIRST | STALE_WHILE_REVALIDATE | NETWORK_FIRST_WITH_OFFLINE => DYNAMIC_CACHE
  end.

(** ** Installation ([sw.js], lines 26-59) *)

Definition INSTALL_TIMEOUT : N := 10000.

(** [new Promise((resolve, reject) => setTimeout(() => resolve(), ms))] *)
Definition resolve_after (ms : N) : M (Promise unit) := λ w,
  (Normal (mkPromise (now w + ms) (Normal ())), w).

(** [self.skipWaiting()] *)
Definition skip_waiting : M (Promise unit) := λ w,
  resolved () (record EvSkipWaiting w).

(** [new Request(url, { cache: "reload" })].  The HTTP cache that the
    directive bypasses is not part of the model, and the URL is kept as it
    is written in the asset list: the browser resolves it against the
    worker's own URL, so that the entry of ["/index.html"] is the one a page
    request for that path on the worker's origin finds. *)
Definition reload_request (url : string) : Request :=
  {| method := "GET"; url := url; destination := EmptyString;
     mode := "cors"; payload := EmptyString |}.

(** [s.endsWith(t)] *)
Fixpoint ends_with (s t : string) : bool :=
  String.eqb s t ||
  match s with
  | EmptyString => false
  | String _ s' => ends_with s' t
  end.

(** A reply [cache.addAll] accepts: a response with an ok status. *)
Definition storable (reply : Reply) : bool :=
  match outcome reply with
  | Responds r => ok r
  | Fails => false
  end.

(** [cache.addAll(requests)]: every request is fetched.  When every reply is
    a response with an ok status, all of them are stored and the promise
    fulfils once the slowest has arrived; otherwise nothing is stored and
    the promise rejects when the first unacceptable reply arrives. *)
Definition cache_addAll (net : Network) (cache : string) (requests : list Request)
    : M (Promise unit) := λ w,
  let fetched := foldl (λ w request, record (EvFetch (method request) (url request)) w)
                   w requests in
  let replies := net <$> requests in
  if forallb storable replies then
    (Normal (mkPromise (now w + foldr N.max 0 (latency <$> replies)) (Normal ())),
     foldl (λ w request,
              match outcome (net request) with
              | Responds r =>
                  record (EvCachePut cache (url request))
                    (with_caches (Store.put cache (url request) r (caches w)) w)
              | Fails => w
              end) fetched requests)
  else
    let refused := List.filter (λ reply, negb (storable reply)) replies in
    (Normal (mkPromise (now w + foldr N.min (latency (default (mkReply 0 Fails) (head refused)))
                                  (latency <$> refused))
               (Throw "TypeError")),
     fetched).

(** The value is how the promise given to [event.waitUntil] settles. *)
Definition onInstall (net : Network) : M unit :=
  opened ← caches_open STATIC_CACHE;
  added ← promise_then opened (λ cache,
    cache_addAll net cache (reload_request <$> STATIC_ASSETS) ≫= await);
  installed ← promise_then added (λ _, skip_waiting ≫= await);
  timer ← resolve_after INSTALL_TIMEOUT;
  await (promise_race installed timer).

(** ** Control messages and cache reset ([sw.js], lines 261-271, 353-357) *)

Definition clearAllCaches : M unit :=
  cacheNames ← caches_keys ≫= await;
  for_each (λ cacheName, caches_delete cacheName ≫= await) cacheNames.

(** The [message] listener.  [type] is [event.data.type] when [event.data]
    is truthy and has one, [ports] the length of [event.ports]; the value is
    the version posted on [event.ports[0]], if any.  Reading [postMessage]
    off a missing port throws. *)
Definition onMessage (type : option string) (ports : nat) : M (option string) :=
  match type with
  | Some type =>
      if String.eqb type "SKIP_WAITING" then skip_waiting;; mret None
      else if String.eqb type "GET_VERSION" then
        match ports with
        | O => throw "TypeError"
        | S _ => mret (Some CACHE_NAME)
        end
      else if String.eqb type "CLEAR_CACHE" then clearAllCaches;; mret None
      else mret None
  | None => mret None
  end.

(** The [periodicsync] listener ([sw.js], lines 274-280). *)
Definition onPeriodicSync (db : DataStore) (net : Network) (tag : string) : M unit :=
  if String.eqb tag "tournament-sync" then syncTournamentData db net
  else mret ().

(** ** Notification clicks ([sw.js], lines 244-258) *)

Inductive ClickEffect :=
| CloseNotification
| OpenWindow (url : string).

Definition onNotificationClick (action : string) : list ClickEffect :=
  CloseNotification ::
  (if String.eqb action "view" then [OpenWindow "/"]
   else if String.eqb action "dismiss" then []
   else [OpenWindow "/"]).

(** ** The page-side manager, other methods *)

Module Page.

(** What a method asks of the browser, in call order. *)
Inductive Effect :=
| Toast (message type : string)
| AskPermission
| RegisterSync (tag : string)
| Share
| ClipboardWrite (text : string)
| UpdateCheck.

(** How the browser answers. *)
Record Platform := mkPlatform {
  serviceWorker : bool;
  backgroundSync : bool;
  ready : Completion unit;
  register : string → Completion unit;
  requestPermission : Completion string;
  share : option (Completion unit);
  clipboard : option (string → Completion unit);
  getRegistration : Completion (option (Completion unit))
}.

Definition Q (A : Type) : Type := list Effect → Completion A * list Effect.

#[global] Instance Q_ret : MRet Q := λ A a l, (Normal a, l).
#[global] Instance Q_bind : MBind Q := λ A B f c l,
  match c l with
  | (Normal a, l') => f a l'
  | (Throw e, l') => (Throw e, l')
  end.

Definition try_catch {A} (body : Q A) (handler : string → Q A) : Q A := λ l,
  match body l with
  | (Normal a, l') => (Normal a, l')
  | (Throw e, l') => handler e l'
  end.

(** A browser call: it is recorded, and completes as the browser says. *)
Definition call {A} (e : Effect) (answer : Completion A) : Q A := λ l,
  (answer, l ++ [e]).

(** [await] on a promise of the browser's. *)
Definition settle {A} (answer : Completion A) : Q A := λ l, (answer, l).

(** [this.showNotification(message, type)] *)
Definition showNotification (message type : string) : Q unit :=
  call (Toast message type) (Normal ()).

Definition requestNotificationPermission (b : PWA.Browser) (pf : Platform) : Q bool :=
  if negb (PWA.notificationSupported b) then mret false
  else if String.eqb (PWA.notificationPermission b) "granted" then mret true
  else if String.eqb (PWA.notificationPermission b) "denied" then mret false
  else
    try_catch
      (permission ← call AskPermission (requestPermission pf);
       mret (String.eqb permission "granted"))
      (λ error, mret false).

Definition triggerBackgroundSync (pf : Platform) : Q unit :=
  if serviceWorker pf && backgroundSync pf then
    try_catch
      (settle (ready pf);;
       call (RegisterSync "sync-tournament-data") (register pf "sync-tournament-data");;
       call (RegisterSync "sync-player-data") (register pf "sync-player-data"))
      (λ error, mret ())
  else mret ().

(** [data] is taken to be an object and [url] is its [url]; the empty
    string stands for a missing one, both being falsy. *)
Definition shareContent (url : string) (pf : Platform) : Q bool :=
  match share pf with
  | Some answer =>
      try_catch (call Share answer;; mret true) (λ error, mret false)
  | None =>
      match clipboard pf, url with
      | Some writeText, String _ _ =>
          try_catch
            (call (ClipboardWrite url) (writeText url);;
             showNotification "Link copied to clipboard!" "success";;
             mret true)
            (λ error, mret false)
      | _, _ => mret false
      end
  end.

Definition checkForUpdates (pf : Platform) : Q unit :=
  if serviceWorker pf then
    try_catch
      (registration ← settle (getRegistration pf);
       match registration with
       | Some update => call UpdateCheck update
       | None => mret ()
       end)
      (λ error, mret ())
  else mret ().

(** The listener on worker messages; [type] is [event.data.type]. *)
Definition onWorkerMessage (type : string) : Q unit :=
  if String.eqb type "SYNC_SUCCESS" then showNotification "Data synced successfully" "success"
  else if String.eqb type "CACHE_UPDATED" then showNotification "App updated in background" "info"
  else if String.eqb type "OFFLINE_READY" then showNotification "App ready for offline use" "success"
  else mret ().

(** The [online] and [offline] listeners. *)
Definition onOnline (pf : Platform) : Q unit :=
  showNotification "Back online - syncing data..." "success";;
  triggerBackgroundSync pf.

Definition onOffline : Q unit :=
  showNotification "You are offline - data will sync when reconnected" "warning".

(** *** The install button *)

(** The manager together with the [display] style of the install button,
    when the document has one. *)
Record View := mkView {
  manager : PWA.Manager;
  installBtn : option string
}.

Definition showInstallButton (v : View) : View :=
  {| manager := manager v; installBtn := Some "block" |}.

Definition hideInstallButton (v : View) : View :=
  {| manager := manager v;
     installBtn := match installBtn v with
                   | Some _ => Some "none"
                   | None => None
                   end |}.

(** [checkInstallStatus]; the arguments are the standalone media query and
    [navigator.standalone === true]. *)
Definition checkInstallStatus (standaloneMode navigatorStandalone : bool)
    (m : PWA.Manager) : PWA.Manager :=
  if standaloneMode || navigatorStandalone then
    {| PWA.deferredPrompt := PWA.deferredPrompt m; PWA.isInstalled := true;
       PWA.shown := PWA.shown m |}
  else m.

(** The manager a page starts with: the constructor, then [init]. *)
Definition start (standaloneMode navigatorStandalone : bool) : View :=
  {| manager := checkInstallStatus standaloneMode navigatorStandalone
                  {| PWA.deferredPrompt := None; PWA.isInstalled := false;
                     PWA.shown := [] |};
     installBtn := None |}.

(** The two window events [setupInstallPrompt] listens to. *)
Inductive Signal :=
| BeforeInstallPrompt (e : PWA.PromptEvent)
| AppInstalled.

Definition onSignal (s : Signal) (v : View) : View :=
  match s with
  | BeforeInstallPrompt e =>
      showInstallButton
        {| manager := {| PWA.deferredPrompt := Some e;
                         PWA.isInstalled := PWA.isInstalled (manager v);
                         PWA.shown := PWA.shown (manager v) |};
           installBtn := installBtn v |}
  | AppInstalled =>
      hideInstallButton
        {| manager := {| PWA.deferredPrompt := None; PWA.isInstalled := true;
                         PWA.shown := PWA.shown (manager v) |};
           installBtn := installBtn v |}
  end.

(** What the page goes through: a window event, or a click on the install
    button, with the window events that arrive while [promptInstall] waits
    for the user's choice. *)
Inductive PageEvent :=
| Window (s : Signal)
| ClickInstall (during : list Signal).

Definition onClickInstall (during : list Signal) (v : View) : View :=
  match installBtn v with
  | None => v
  | Some _ =>
      let meanwhile := λ m,
        manager (foldl (λ v s, onSignal s v) {| manager := m; installBtn := installBtn v |}
                   during) in
      {| manager := (PWA.promptInstall meanwhile (manager v)).2;
         installBtn :=
           match PWA.deferredPrompt (manager v) with
           | Some e =>
               match PWA.prompt e with
               | Normal _ => installBtn (foldl (λ v s, onSignal s v) v during)
               | Throw _ => installBtn v
               end
           | None => installBtn v
           end |}
  end.

Definition step (v : View) (ev : PageEvent) : View :=
  match ev with
  | Window s => onSignal s v
  | ClickInstall during => onClickInstall during v
  end.

Definition run (events : list PageEvent) (v : View) : View := foldl step v events.

End Page.

(** ** Sample inputs *)

Module Sample.

Definition fonts_request : Request :=
  {| method := "GET"; url := "https://fonts.googleapis.com/css?family=Roboto";
     destination := "style"; mode := "no-cors"; payload := EmptyString |}.

Definition page_request : Request :=
  {| method := "GET"; url := "https://padel.example/players.html";
     destination := "document"; mode := "navigate"; payload := EmptyString |}.

Definition score_request : Request :=
  {| method := "POST"; url := "https://padel.example/api/score";
     destination := EmptyString; mode := "cors"; payload := "{}" |}.

Definition fresh : Response := {| status := 200; body := "fresh"; headers := [] |}.
Definition stale : Response := {| status := 200; body := "stale"; headers := [] |}.
Definition rejected : Response := {| status := 500; body := "no"; headers := [] |}.

Definition online (ms : N) : Network := λ _, {| latency := ms; outcome := Responds fresh |}.
Definition offline : Network := λ _, {| latency := 30; outcome := Fails |}.
Definition refusing : Network := λ _, {| latency := 30; outcome := Responds rejected |}.

Definition empty_world : World := {| caches := []; now := 0; log := [] |}.

(** The fonts stylesheet is held by the dynamic cache only. *)
Definition fonts_in_dynamic : World :=
  {| caches := [(STATIC_CACHE, ∅); (DYNAMIC_CACHE, {[url fonts_request := stale]})];
     now := 0; log := [] |}.

(** A superseded generation next to the three current ones. *)
Definition before_activation : World :=
  {| caches := [("padel-static-v2.0.0", {["/" := stale]});
                (STATIC_CACHE, {["/" := fresh]});
                (DYNAMIC_CACHE, ∅);
                (CACHE_NAME, ∅)];
     now := 0; log := [] |}.

Definition one_player : DataStore :=
  λ key, if String.eqb key "players" then ["{id:1}"] else [].

Definition accepting_prompt : PWA.PromptEvent :=
  {| PWA.prompt := Normal (); PWA.userChoice := Normal "accepted" |}.

End Sample.

(** ** Further sample inputs *)

Module Scenario.

Definition one_tournament : DataStore :=
  λ key, if String.eqb key "tournaments" then ["{id:7}"] else [].

Definition both_domains : DataStore :=
  λ key, if String.eqb key "tournaments" then ["{id:7}"]
         else if String.eqb key "players" then ["{id:1}"] else [].

(** A browser with every capability, in which every call succeeds. *)
Definition capable : Page.Platform :=
  {| Page.serviceWorker := true; Page.backgroundSync := true;
     Page.ready := Normal ();
     Page.register := λ _, Normal ();
     Page.requestPermission := Normal "granted";
     Page.share := Some (Normal ());
     Page.clipboard := Some (λ _, Normal ());
     Page.getRegistration := Normal (Some (Normal ())) |}.

(** One where the share sheet exists and the user cancels it. *)
Definition cancelling : Page.Platform :=
  {| Page.serviceWorker := true; Page.backgroundSync := true;
     Page.ready := Normal ();
     Page.register := λ _, Normal ();
     Page.requestPermission := Normal "denied";
     Page.share := Some (Throw "AbortError");
     Page.clipboard := Some (λ _, Normal ());
     Page.getRegistration := Normal None |}.

Definition undecided : PWA.Browser :=
  {| PWA.onLine := true; PWA.notificationSupported := true;
     PWA.notificationPermission := "default" |}.


End Scenario.

(** * Properties *)

(** ** Substring search *)

Lemma string_app_nil (s : string) : EmptyString +:+ s = s.
Proof. reflexivity. Qed.

Lemma string_app_cons a (s t : string) : String a s +:+ t = String a (s +:+ t).
Proof. reflexivity. Qed.

Lemma string_app_assoc (a b c : string) : (a +:+ b) +:+ c = a +:+ (b +:+ c).
Proof.
  induction a as [|x a IH]; [done |].
  by rewrite !string_app_cons, IH.
Qed.

Lemma starts_with_spec s p :
  Str.starts_with s p = true ↔ ∃ rest, s = p +:+ rest.
Proof.
  revert s. induction p as [|a p IH]; intros s; simpl.
  - split; [intros _; by exists s | done].
  - destruct s as [|b s].
    + split; [done | intros [rest Hr]; discriminate].
    + rewrite andb_true_iff, IH, Ascii.eqb_eq. split.
      * intros [-> [rest ->]]. by exists rest.
      * intros [rest Hr]. rewrite string_app_cons in Hr.
        injection Hr as -> ->. split; [done | by exists rest].
Qed.

Lemma includes_spec s t :
  Str.includes s t = true ↔ ∃ before after, s = before +:+ (t +:+ after).
Proof.
  induction s as [|b s IH]; simpl.
  - rewrite orb_false_r, starts_with_spec. split.
    + intros [rest Hr]. by exists EmptyString, rest.
    + intros [before [after H]]. destruct before; [by exists after | discriminate].
  - rewrite orb_true_iff, IH, starts_with_spec. split.
    + intros [[rest Hr] | [before [after Hr]]].
      * by exists EmptyString, rest.
      * exists (String b before), after. by rewrite string_app_cons, Hr.
    + intros [before [after Hr]]. destruct before as [|c before].
      * left. by exists after.
      * right. rewrite string_app_cons in Hr.
        injection Hr as _ Hr. by exists before, after.
Qed.

(** A string that includes [p] includes whatever [p] includes. *)
Lemma includes_trans s p t :
  Str.includes s p = true → Str.includes p t = true → Str.includes s t = true.
Proof.
  rewrite !includes_spec. intros [a [b ->]] [c [d ->]].
  exists (a +:+ c), (d +:+ b). by rewrite !string_app_assoc.
Qed.

(** ** Routing *)

(** The first static asset, ["/"], is included in every URL that has a
    slash, so the first rule takes the request. *)
Lemma route_slash request :
  method request = "GET" → Str.includes (url request) "/" = true →
  route request = Some CACHE_FIRST.
Proof.
  intros Hm Hs. unfold route. rewrite Hm. simpl. by rewrite Hs.
Qed.

Lemma dynamic_assets_have_slash pattern :
  pattern ∈ DYNAMIC_ASSETS → Str.includes pattern "/" = true.
Proof.
  unfold DYNAMIC_ASSETS. rewrite !elem_of_cons, elem_of_nil.
  intros [-> | [-> | [-> | [-> | []]]]]; reflexivity.
Qed.

Lemma dynamic_match_has_slash u :
  existsb (λ pattern, Str.includes u pattern) DYNAMIC_ASSETS = true →
  Str.includes u "/" = true.
Proof.
  intros Hd. apply existsb_exists in Hd as [pattern [Hin Hp]].
  apply includes_trans with pattern; [done |].
  apply dynamic_assets_have_slash. by apply list_elem_of_In.
Qed.

(** No request at all is given STALE_WHILE_REVALIDATE. *)
Lemma route_never_stale_while_revalidate request :
  route request ≠ Some STALE_WHILE_REVALIDATE.
Proof.
  unfold route. destruct (negb _); [done |].
  destruct (existsb _ STATIC_ASSETS) eqn:Hs; [done |].
  destruct (existsb _ DYNAMIC_ASSETS) eqn:Hd.
  - apply dynamic_match_has_slash in Hd. simpl in Hs. by rewrite Hd in Hs.
  - destruct (_ || _); [done |]. by destruct (String.eqb _ _).
Qed.

(** C1 (the code departs from the design document): a GET request whose URL matches a
    dynamic-asset prefix is not given STALE_WHILE_REVALIDATE.  The static
    rule is tried first and tests [request.url.includes(asset)]; the asset
    ["/"] occurs in every dynamic prefix, hence in the URL, so the handler
    selects CACHE_FIRST and the stale-while-revalidate branch is never
    reached. *)
Theorem route_dynamic_prefix_cache_first request :
  method request = "GET" →
  existsb (λ pattern, Str.includes (url request) pattern) DYNAMIC_ASSETS = true →
  route request = Some CACHE_FIRST.
Proof.
  intros Hm Hd. apply route_slash; [done |]. by apply dynamic_match_has_slash.
Qed.

Lemma route_dynamic_prefix_cache_first_witness :
  method Sample.fonts_request = "GET" ∧
  existsb (λ pattern, Str.includes (url Sample.fonts_request) pattern) DYNAMIC_ASSETS = true ∧
  route Sample.fonts_request = Some CACHE_FIRST.
Proof.
  split; [reflexivity |]. split; [reflexivity |].
  apply (route_dynamic_prefix_cache_first Sample.fonts_request); reflexivity.
Defined.

(** The fonts URL is none of the static asset literals. *)
Lemma fonts_url_not_static_literal :
  url Sample.fonts_request ∉ STATIC_ASSETS.
Proof.
  unfold STATIC_ASSETS. rewrite !not_elem_of_cons. repeat split; try discriminate.
  apply not_elem_of_nil.
Qed.

(** C9: a request whose method is not GET is not intercepted; handling it
    leaves the world as it was: no cache is read or written, nothing is
    fetched by the worker, and no time passes in it. *)
Theorem onFetch_non_GET_not_intercepted (net : Network) request w :
  method request ≠ "GET" →
  onFetch net request w = (NotIntercepted, w).
Proof.
  intros Hm. unfold onFetch, route.
  destruct (String.eqb_spec (method request) "GET") as [Heq | _]; [done | reflexivity].
Qed.

Lemma onFetch_non_GET_not_intercepted_witness :
  method Sample.score_request ≠ "GET" ∧
  onFetch Sample.offline Sample.score_request Sample.fonts_in_dynamic
  = (NotIntercepted, Sample.fonts_in_dynamic).
Proof.
  split; [discriminate |].
  apply (onFetch_non_GET_not_intercepted Sample.offline Sample.score_request); discriminate.
Defined.

(** ** The Cache Store *)

Lemma find_app_fresh name cs :
  Store.find name cs = None →
  Store.find name (cs ++ [(name, ∅)]) = Some ∅.
Proof.
  induction cs as [|[n c] cs IH]; simpl.
  - intros _. by rewrite String.eqb_refl.
  - destruct (String.eqb n name); [done | exact IH].
Qed.

(** Opening a cache does not change what a lookup in it finds. *)
Lemma lookup_open name url cs :
  Store.lookup name url (Store.open name cs) = Store.lookup name url cs.
Proof.
  unfold Store.open, Store.lookup.
  destruct (Store.find name cs) as [c|] eqn:Hf; simpl.
  - by rewrite Hf.
  - by rewrite find_app_fresh.
Qed.

Lemma open_existing name url cs r :
  Store.lookup name url cs = Some r → Store.open name cs = cs.
Proof.
  unfold Store.open, Store.lookup.
  by destruct (Store.find name cs).
Qed.

(** ** The strategies *)

Ltac run_async :=
  unfold try_catch, await, resolved, fetch, caches_match, caches_open, cache_match,
    cache_put, caches_keys, caches_delete, clients_claim, sync_register,
    broadcastMessage, promise_then, promise_catch, promise_race, reject_after,
    async_return, throw, getStoredData, post, mbind, M_bind, mret, M_ret;
  simpl.

Ltac settle :=
  simpl; repeat split; simpl; rewrite <- ?app_assoc; simpl;
  try done; try lia.

(** What one call of [cacheFirst] returns and does, case by case. *)
Lemma cacheFirst_run (net : Network) request w :
  let u := url request in
  let '(c, w') := cacheFirst net request w in
  match Store.match_any u (caches w) with
  | Some hit =>
      c = Normal (Some hit) ∧ caches w' = caches w ∧ now w' = now w ∧
      log w' = log w ++ [EvCachesMatch u]
  | None =>
      now w' = now w + latency (net request) ∧
      match outcome (net request) with
      | Responds r =>
          c = Normal (Some r) ∧
          if ok r then
            caches w' = Store.put STATIC_CACHE u r (Store.open STATIC_CACHE (caches w)) ∧
            log w' = log w ++ [EvCachesMatch u; EvFetch (method request) u;
                               EvCachesOpen STATIC_CACHE; EvCachePut STATIC_CACHE u]
          else
            caches w' = caches w ∧
            log w' = log w ++ [EvCachesMatch u; EvFetch (method request) u]
      | Fails =>
          c = Normal (Some offline_response) ∧ caches w' = caches w ∧
          log w' = log w ++ [EvCachesMatch u; EvFetch (method request) u]
      end
  end.
Proof.
  unfold cacheFirst. run_async.
  destruct (Store.match_any (url request) (caches w)) as [hit|]; [settle |].
  destruct (outcome (net request)) as [r|]; [| settle].
  simpl. destruct (ok r); settle.
Qed.

(** C5 (as the code has it): [cacheFirst] looks the request up with
    [caches.match], that is in every cache generation, in creation order.  A
    hit in any of them is returned at once and nothing is fetched.  When no
    generation has the request it is fetched: a response with an ok status
    is stored in the STATIC cache and returned, a response with another
    status is returned and not stored, and a transport failure gives the
    synthetic 503. *)
Theorem cacheFirst_spec (net : Network) request w :
  let u := url request in
  let '(c, w') := cacheFirst net request w in
  match Store.match_any u (caches w) with
  | Some hit =>
      c = Normal (Some hit) ∧ caches w' = caches w ∧ now w' = now w ∧
      log w' = log w ++ [EvCachesMatch u]
  | None =>
      now w' = now w + latency (net request) ∧
      match outcome (net request) with
      | Responds r =>
          c = Normal (Some r) ∧
          if ok r then
            caches w' = Store.put STATIC_CACHE u r (Store.open STATIC_CACHE (caches w)) ∧
            log w' = log w ++ [EvCachesMatch u; EvFetch (method request) u;
                               EvCachesOpen STATIC_CACHE; EvCachePut STATIC_CACHE u]
          else
            caches w' = caches w ∧
            log w' = log w ++ [EvCachesMatch u; EvFetch (method request) u]
      | Fails =>
          c = Normal (Some offline_response) ∧ caches w' = caches w ∧
          log w' = log w ++ [EvCachesMatch u; EvFetch (method request) u]
      end
  end.
Proof.
  unfold cacheFirst. run_async.
  destruct (Store.match_any (url request) (caches w)) as [hit|]; [settle |].
  destruct (outcome (net request)) as [r|]; [| settle].
  simpl. destruct (ok r); settle.
Qed.

(** C5 read as a lookup in the STATIC cache alone fails: with the
    stylesheet held by the DYNAMIC cache only, the STATIC cache misses, and
    yet the stale entry is returned and the network, which would have
    answered, is not asked. *)
Lemma cacheFirst_static_miss_dynamic_hit :
  Store.lookup STATIC_CACHE (url Sample.fonts_request) (caches Sample.fonts_in_dynamic) = None ∧
  outcome (Sample.online 10 Sample.fonts_request) = Responds Sample.fresh ∧
  cacheFirst (Sample.online 10) Sample.fonts_request Sample.fonts_in_dynamic
  = (Normal (Some Sample.stale),
     record (EvCachesMatch (url Sample.fonts_request)) Sample.fonts_in_dynamic).
Proof. repeat split; vm_compute; reflexivity. Qed.

Lemma match_any_app url (cs cs' : CacheStorage) :
  Store.match_any url (cs ++ cs')
  = match Store.match_any url cs with
    | Some r => Some r
    | None => Store.match_any url cs'
    end.
Proof.
  induction cs as [|[n c] cs IH]; simpl; [done |].
  by destruct (c !! url).
Qed.

Lemma match_any_put name url r cs :
  Store.match_any url cs = None → is_Some (Store.find name cs) →
  Store.match_any url (Store.put name url r cs) = Some r.
Proof.
  induction cs as [|[n c] cs IH]; simpl; [by intros _ [? ?] |].
  destruct (c !! url) eqn:Hc; [done |]. intros Hmiss Hfind.
  destruct (String.eqb n name); simpl.
  - by rewrite lookup_insert_eq.
  - rewrite Hc. by apply IH.
Qed.

Lemma match_any_put_open name url r cs :
  Store.match_any url cs = None →
  Store.match_any url (Store.put name url r (Store.open name cs)) = Some r.
Proof.
  intros Hmiss. apply match_any_put.
  - unfold Store.open. destruct (Store.find name cs); [done |].
    by rewrite match_any_app, Hmiss.
  - unfold Store.open. destruct (Store.find name cs) eqn:Hf; [by rewrite Hf |].
    by rewrite find_app_fresh.
Qed.

(** X5: cache-first idempotence.  When no cache generation has the request,
    a first call returns what the network served with an ok status, and a
    second call, whatever the network would do then, returns the same
    response from the cache without fetching. *)
Lemma cacheFirst_idempotent (net net' : Network) request w r :
  Store.match_any (url request) (caches w) = None →
  outcome (net request) = Responds r → ok r = true →
  (cacheFirst net request w).1 = Normal (Some r) ∧
  (cacheFirst net' request (cacheFirst net request w).2).1 = Normal (Some r) ∧
  log (cacheFirst net' request (cacheFirst net request w).2).2
  = log (cacheFirst net request w).2 ++ [EvCachesMatch (url request)].
Proof.
  intros Hmiss Hnet Hok.
  pose proof (cacheFirst_run net request w) as H. simpl in H.
  destruct (cacheFirst net request w) as [c w'].
  rewrite Hmiss, Hnet, Hok in H. destruct H as (_ & -> & Hc & _). simpl.
  split; [done |].
  pose proof (cacheFirst_run net' request w') as H'. simpl in H'.
  destruct (cacheFirst net' request w') as [c' w''].
  rewrite Hc, (match_any_put_open _ _ _ _ Hmiss) in H'.
  destruct H' as (Hc' & _ & _ & Hl'). by split.
Qed.

(** [cacheFirst] always has a response for its caller. *)
Lemma cacheFirst_responds (net : Network) request w :
  ∃ r, (cacheFirst net request w).1 = Normal (Some r).
Proof.
  pose proof (cacheFirst_run net request w) as H. simpl in H.
  destruct (cacheFirst net request w) as [c w'].
  destruct (Store.match_any (url request) (caches w)) as [hit|].
  - exists hit. by destruct H as [-> _].
  - destruct H as [_ H]. destruct (outcome (net request)) as [r|].
    + exists r. by destruct H as [-> _].
    + exists offline_response. by destruct H as [-> _].
Qed.

(** What one call of [networkFirst] returns and does, case by case. *)
Lemma networkFirst_run (net : Network) request w :
  let u := url request in
  let fallback := Normal (Some (default offline_response (Store.match_any u (caches w)))) in
  let '(c, w') := networkFirst net request w in
  if latency (net request) <=? NETWORK_TIMEOUT then
    now w' = now w + latency (net request) ∧
    match outcome (net request) with
    | Responds r =>
        c = Normal (Some r) ∧
        if ok r then
          caches w' = Store.put DYNAMIC_CACHE u r (Store.open DYNAMIC_CACHE (caches w)) ∧
          log w' = log w ++ [EvFetch (method request) u;
                             EvCachesOpen DYNAMIC_CACHE; EvCachePut DYNAMIC_CACHE u]
        else
          caches w' = caches w ∧ log w' = log w ++ [EvFetch (method request) u]
    | Fails =>
        c = fallback ∧ caches w' = caches w ∧
        log w' = log w ++ [EvFetch (method request) u; EvCachesMatch u]
    end
  else
    now w' = now w + NETWORK_TIMEOUT ∧
    c = fallback ∧ caches w' = caches w ∧
    log w' = log w ++ [EvFetch (method request) u; EvCachesMatch u].
Proof.
  unfold networkFirst. run_async.
  replace (now w + latency (net request) <=? now w + NETWORK_TIMEOUT)
    with (latency (net request) <=? NETWORK_TIMEOUT)
    by (apply eq_true_iff_eq; rewrite !N.leb_le; lia).
  destruct (latency (net request) <=? NETWORK_TIMEOUT); simpl; [| settle].
  destruct (outcome (net request)) as [r|]; [| settle].
  simpl. destruct (ok r); settle.
Qed.

(** C6: [networkFirst] races the fetch against the 5000 ms timer.  When the
    fetch settles first with a response, the response is returned, and
    stored in the DYNAMIC cache when its status is ok.  When the timer wins,
    or the fetch fails, the entry [caches.match] finds is returned, or the
    synthetic 503 when there is none; the caches are left as they were, so a
    response that arrives after the timer is neither returned nor stored. *)
Theorem networkFirst_spec (net : Network) request w :
  let u := url request in
  let fallback := Normal (Some (default offline_response (Store.match_any u (caches w)))) in
  let '(c, w') := networkFirst net request w in
  if latency (net request) <=? NETWORK_TIMEOUT then
    now w' = now w + latency (net request) ∧
    match outcome (net request) with
    | Responds r =>
        c = Normal (Some r) ∧
        if ok r then
          caches w' = Store.put DYNAMIC_CACHE u r (Store.open DYNAMIC_CACHE (caches w)) ∧
          log w' = log w ++ [EvFetch (method request) u;
                             EvCachesOpen DYNAMIC_CACHE; EvCachePut DYNAMIC_CACHE u]
        else
          caches w' = caches w ∧ log w' = log w ++ [EvFetch (method request) u]
    | Fails =>
        c = fallback ∧ caches w' = caches w ∧
        log w' = log w ++ [EvFetch (method request) u; EvCachesMatch u]
    end
  else
    now w' = now w + NETWORK_TIMEOUT ∧
    c = fallback ∧ caches w' = caches w ∧
    log w' = log w ++ [EvFetch (method request) u; EvCachesMatch u].
Proof.
  unfold networkFirst. run_async.
  replace (now w + latency (net request) <=? now w + NETWORK_TIMEOUT)
    with (latency (net request) <=? NETWORK_TIMEOUT)
    by (apply eq_true_iff_eq; rewrite !N.leb_le; lia).
  destruct (latency (net request) <=? NETWORK_TIMEOUT); simpl; [| settle].
  destruct (outcome (net request)) as [r|]; [| settle].
  simpl. destruct (ok r); settle.
Qed.

(** The consequence the design document draws: a network slower than the
    timer and an entry in the cache give the cached entry. *)
Lemma networkFirst_slow_network_serves_cache (net : Network) request w cached :
  NETWORK_TIMEOUT < latency (net request) →
  Store.match_any (url request) (caches w) = Some cached →
  (networkFirst net request w).1 = Normal (Some cached) ∧
  caches (networkFirst net request w).2 = caches w.
Proof.
  intros Hslow Hhit.
  pose proof (networkFirst_run net request w) as H. simpl in H.
  destruct (networkFirst net request w) as [c w'].
  apply N.leb_gt in Hslow. rewrite Hslow, Hhit in H.
  destruct H as (_ & Hc & Hs & _). by split.
Qed.

Lemma networkFirst_responds (net : Network) request w :
  ∃ r, (networkFirst net request w).1 = Normal (Some r).
Proof.
  pose proof (networkFirst_run net request w) as H. simpl in H.
  destruct (networkFirst net request w) as [c w'].
  destruct (latency (net request) <=? NETWORK_TIMEOUT).
  - destruct H as [_ H]. destruct (outcome (net request)) as [r|].
    + exists r. by destruct H as [-> _].
    + eexists. by destruct H as [-> _].
  - eexists. by destruct H as (_ & -> & _).
Qed.

(** What one call of [staleWhileRevalidate] returns and does on a cache hit. *)
Lemma staleWhileRevalidate_hit_run (net : Network) request w cached :
  Store.lookup DYNAMIC_CACHE (url request) (caches w) = Some cached →
  let u := url request in
  let '(c, w') := staleWhileRevalidate net request w in
  c = Normal (Some cached) ∧ now w' = now w ∧
  match outcome (net request) with
  | Responds r =>
      if ok r then
        caches w' = Store.put DYNAMIC_CACHE u r (caches w) ∧
        log w' = log w ++ [EvCachesOpen DYNAMIC_CACHE; EvCacheMatch DYNAMIC_CACHE u;
                           EvFetch (method request) u; EvCachePut DYNAMIC_CACHE u]
      else
        caches w' = caches w ∧
        log w' = log w ++ [EvCachesOpen DYNAMIC_CACHE; EvCacheMatch DYNAMIC_CACHE u;
                           EvFetch (method request) u]
  | Fails =>
      caches w' = caches w ∧
      log w' = log w ++ [EvCachesOpen DYNAMIC_CACHE; EvCacheMatch DYNAMIC_CACHE u;
                         EvFetch (method request) u]
  end.
Proof.
  intros Hhit. unfold staleWhileRevalidate. run_async.
  rewrite lookup_open, Hhit, (open_existing _ _ _ _ Hhit).
  destruct (outcome (net request)) as [r|]; [| settle].
  simpl. destruct (ok r); settle.
Qed.

(** C7: when the DYNAMIC cache has an entry for the request,
    [staleWhileRevalidate] returns that entry whatever the network does, and
    returns it at the time it was called, not at the time the fetch
    settles.  The fetch is issued all the same, and the DYNAMIC cache gets
    the network response exactly when one arrives with an ok status. *)
Theorem staleWhileRevalidate_hit (net : Network) request w cached :
  Store.lookup DYNAMIC_CACHE (url request) (caches w) = Some cached →
  let u := url request in
  let '(c, w') := staleWhileRevalidate net request w in
  c = Normal (Some cached) ∧ now w' = now w ∧
  match outcome (net request) with
  | Responds r =>
      if ok r then
        caches w' = Store.put DYNAMIC_CACHE u r (caches w) ∧
        log w' = log w ++ [EvCachesOpen DYNAMIC_CACHE; EvCacheMatch DYNAMIC_CACHE u;
                           EvFetch (method request) u; EvCachePut DYNAMIC_CACHE u]
      else
        caches w' = caches w ∧
        log w' = log w ++ [EvCachesOpen DYNAMIC_CACHE; EvCacheMatch DYNAMIC_CACHE u;
                           EvFetch (method request) u]
  | Fails =>
      caches w' = caches w ∧
      log w' = log w ++ [EvCachesOpen DYNAMIC_CACHE; EvCacheMatch DYNAMIC_CACHE u;
                         EvFetch (method request) u]
  end.
Proof.
  intros Hhit. unfold staleWhileRevalidate. run_async.
  rewrite lookup_open, Hhit, (open_existing _ _ _ _ Hhit).
  destruct (outcome (net request)) as [r|]; [| settle].
  simpl. destruct (ok r); settle.
Qed.

Lemma staleWhileRevalidate_hit_witness :
  Store.lookup DYNAMIC_CACHE (url Sample.fonts_request) (caches Sample.fonts_in_dynamic)
  = Some Sample.stale ∧
  let '(c, w') :=
    staleWhileRevalidate (Sample.online 700) Sample.fonts_request Sample.fonts_in_dynamic in
  c = Normal (Some Sample.stale) ∧ now w' = 0 ∧
  caches w' = Store.put DYNAMIC_CACHE (url Sample.fonts_request) Sample.fresh
                (caches Sample.fonts_in_dynamic) ∧
  log w' = [EvCachesOpen DYNAMIC_CACHE;
            EvCacheMatch DYNAMIC_CACHE (url Sample.fonts_request);
            EvFetch "GET" (url Sample.fonts_request);
            EvCachePut DYNAMIC_CACHE (url Sample.fonts_request)].
Proof.
  split; [reflexivity |].
  exact (staleWhileRevalidate_hit (Sample.online 700) Sample.fonts_request
           Sample.fonts_in_dynamic Sample.stale eq_refl).
Defined.

(** The refresh is issued on a hit and on a miss alike. *)
Lemma staleWhileRevalidate_always_fetches (net : Network) request w :
  EvFetch (method request) (url request) ∈ log (staleWhileRevalidate net request w).2.
Proof.
  unfold staleWhileRevalidate. run_async.
  destruct (outcome (net request)) as [r|]; simpl.
  - destruct (ok r); simpl;
      destruct (Store.lookup _ _ _); simpl; rewrite !elem_of_app, !list_elem_of_singleton;
      tauto.
  - destruct (Store.lookup _ _ _); simpl; rewrite !elem_of_app, !list_elem_of_singleton;
      tauto.
Qed.

Lemma lookup_put name url r cs c :
  Store.find name cs = Some c → Store.lookup name url (Store.put name url r cs) = Some r.
Proof.
  unfold Store.lookup. induction cs as [|[n c'] cs IH]; simpl; [done |].
  destruct (String.eqb n name) eqn:Hn; simpl.
  - intros _. rewrite Hn. simpl. apply lookup_insert_eq.
  - intros Hf. rewrite Hn. by apply IH.
Qed.

(** X6: after a call whose background refresh brought a response with an ok
    status, the next call returns that new content, not the entry the first
    call returned. *)
Lemma staleWhileRevalidate_then_fresh (net net' : Network) request w cached r :
  Store.lookup DYNAMIC_CACHE (url request) (caches w) = Some cached →
  outcome (net request) = Responds r → ok r = true →
  (staleWhileRevalidate net' request (staleWhileRevalidate net request w).2).1
  = Normal (Some r).
Proof.
  intros Hhit Hnet Hok.
  pose proof (staleWhileRevalidate_hit_run net request w cached Hhit) as H. simpl in H.
  destruct (staleWhileRevalidate net request w) as [c w'].
  rewrite Hnet, Hok in H. destruct H as (_ & _ & Hc & _). simpl.
  assert (Store.lookup DYNAMIC_CACHE (url request) (caches w') = Some r) as Hnew.
  { rewrite Hc. unfold Store.lookup in Hhit.
    destruct (Store.find DYNAMIC_CACHE (caches w)) as [c0|] eqn:Hf; [| done].
    by eapply lookup_put. }
  pose proof (staleWhileRevalidate_hit_run net' request w' r Hnew) as H'. simpl in H'.
  destruct (staleWhileRevalidate net' request w') as [c' w'']. by destruct H' as [-> _].
Qed.

(** C2 (the code departs from the design document): on a miss in the DYNAMIC cache and
    a transport failure, [staleWhileRevalidate] fulfils with [undefined]:
    the [catch] of the refresh hands back the cached value, which is absent,
    and no synthetic 503 is made. *)
Theorem staleWhileRevalidate_miss_failure_undefined (net : Network) request w :
  Store.lookup DYNAMIC_CACHE (url request) (caches w) = None →
  outcome (net request) = Fails →
  (staleWhileRevalidate net request w).1 = Normal None.
Proof.
  intros Hmiss Hfail. unfold staleWhileRevalidate. run_async.
  by rewrite lookup_open, Hmiss, Hfail.
Qed.

Lemma staleWhileRevalidate_miss_failure_undefined_witness :
  Store.lookup DYNAMIC_CACHE (url Sample.fonts_request) (caches Sample.empty_world) = None ∧
  outcome (Sample.offline Sample.fonts_request) = Fails ∧
  (staleWhileRevalidate Sample.offline Sample.fonts_request Sample.empty_world).1
  = Normal None.
Proof.
  split; [reflexivity |]. split; [reflexivity |].
  apply (staleWhileRevalidate_miss_failure_undefined Sample.offline Sample.fonts_request
           Sample.empty_world); reflexivity.
Defined.

(** C3 (the code departs from the design document): a navigation whose fetch fails,
    with neither the page nor the offline document in any cache, is
    answered with [undefined].  [caches.match(OFFLINE_PAGE)] is a promise,
    hence truthy, so the [||] never reaches the synthetic 503 HTML response
    and the function's promise follows the lookup, which finds nothing. *)
Theorem networkFirstWithOffline_no_offline_page_undefined (net : Network) request w :
  outcome (net request) = Fails →
  Store.match_any (url request) (caches w) = None →
  mode request = "navigate" →
  Store.match_any OFFLINE_PAGE (caches w) = None →
  (networkFirstWithOffline net request w).1 = Normal None.
Proof.
  intros Hfail Hmiss Hnav Hoff. unfold networkFirstWithOffline. run_async.
  rewrite Hfail. simpl. rewrite Hmiss. simpl. rewrite Hnav. simpl.
  by rewrite Hoff.
Qed.

Lemma networkFirstWithOffline_no_offline_page_undefined_witness :
  outcome (Sample.offline Sample.page_request) = Fails ∧
  Store.match_any (url Sample.page_request) (caches Sample.fonts_in_dynamic) = None ∧
  mode Sample.page_request = "navigate" ∧
  Store.match_any OFFLINE_PAGE (caches Sample.fonts_in_dynamic) = None ∧
  (networkFirstWithOffline Sample.offline Sample.page_request Sample.fonts_in_dynamic).1
  = Normal None.
Proof.
  do 4 (split; [reflexivity |]).
  apply (networkFirstWithOffline_no_offline_page_undefined Sample.offline
           Sample.page_request Sample.fonts_in_dynamic); reflexivity.
Defined.

(** ** Activation *)

Lemma superseded_spec name :
  superseded name = negb (bool_decide (name ∈ [STATIC_CACHE; DYNAMIC_CACHE; CACHE_NAME])).
Proof.
  unfold superseded.
  destruct (String.eqb_spec name STATIC_CACHE) as [-> | H1]; [done |].
  destruct (String.eqb_spec name DYNAMIC_CACHE) as [-> | H2]; [done |].
  destruct (String.eqb_spec name CACHE_NAME) as [-> | H3]; [done |].
  simpl. symmetry. apply negb_true_iff, bool_decide_eq_false.
  rewrite !elem_of_cons, elem_of_nil. tauto.
Qed.

(** The sweep, one listed name after the other. *)
Lemma sweep_run names w :
  for_each (λ cacheName,
    if superseded cacheName then caches_delete cacheName ≫= await else mret ()) names w
  = (Normal (),
     {| caches := foldl (λ cs name, if superseded name then Store.delete name cs else cs)
                    (caches w) names;
        now := now w;
        log := log w ++ (EvCachesDelete <$> List.filter superseded names) |}).
Proof.
  revert w. induction names as [|name names IH]; intros w; simpl.
  - rewrite app_nil_r. by destruct w.
  - unfold mbind, M_bind at 1. destruct (superseded name) eqn:Hs.
    + run_async. rewrite IH, N.max_id. simpl. by rewrite <- app_assoc.
    + unfold mret, M_ret at 1. by rewrite IH.
Qed.

Lemma filter_filter {A} (p q : A → bool) l :
  List.filter p (List.filter q l) = List.filter (λ x, q x && p x) l.
Proof.
  induction l as [|x l IH]; simpl; [done |].
  destruct (q x); simpl; [destruct (p x) |]; by rewrite IH.
Qed.

Lemma sweep_caches names (cs : CacheStorage) :
  foldl (λ cs name, if superseded name then Store.delete name cs else cs) cs names
  = List.filter (λ nc, negb (superseded nc.1 && bool_decide (nc.1 ∈ names))) cs.
Proof.
  revert cs. induction names as [|name names IH]; intros cs; simpl.
  - symmetry. apply forallb_filter_id, forallb_forall. intros nc _.
    apply negb_true_iff, andb_false_iff. by right.
  - rewrite IH. destruct (superseded name) eqn:Hs.
    + unfold Store.delete. rewrite filter_filter. apply filter_ext. intros [n c]. simpl.
      destruct (String.eqb_spec n name) as [-> | Hne]; simpl.
      * rewrite Hs, bool_decide_eq_true_2 by left. done.
      * f_equal. f_equal. apply bool_decide_ext. rewrite elem_of_cons.
        split; [by right | by intros [? | ?]].
    + apply filter_ext. intros [n c]. simpl. f_equal.
      destruct (superseded n) eqn:Hn; simpl; [| done].
      apply bool_decide_ext. rewrite elem_of_cons.
      split; [tauto |]. intros [-> | H]; [congruence | done].
Qed.

Lemma find_filter name (p : string → bool) (cs : CacheStorage) :
  Store.find name (List.filter (λ nc, p nc.1) cs)
  = if p name then Store.find name cs else None.
Proof.
  induction cs as [|[n c] cs IH]; simpl; [by destruct (p name) |].
  destruct (String.eqb_spec n name) as [-> | Hne].
  - destruct (p name) eqn:Hp; simpl; [by rewrite String.eqb_refl | exact IH].
  - destruct (p n); simpl; [| done].
    by destruct (String.eqb_spec n name).
Qed.

(** C8: activation deletes exactly the cache generations whose name is none
    of the current STATIC, DYNAMIC and umbrella names: the generations kept
    are the listed ones with a current name, each with its entries as they
    were, and one delete is issued per listed name that is not current. *)
Theorem onActivate_sweeps_superseded w :
  let current := [STATIC_CACHE; DYNAMIC_CACHE; CACHE_NAME] in
  let '(c, w') := onActivate w in
  c = Normal () ∧
  caches w' = List.filter (λ nc, bool_decide (nc.1 ∈ current)) (caches w) ∧
  (∀ name, Store.find name (caches w')
           = if bool_decide (name ∈ current) then Store.find name (caches w) else None) ∧
  log w' = log w ++ [EvCachesKeys; EvClientsClaim]
             ++ (EvCachesDelete <$>
                   List.filter (λ name, negb (bool_decide (name ∈ current)))
                     (Store.keys (caches w))).
Proof.
  assert (caches (onActivate w).2
          = List.filter (λ nc, bool_decide (nc.1 ∈ [STATIC_CACHE; DYNAMIC_CACHE; CACHE_NAME]))
              (caches w)) as Hcaches.
  { unfold onActivate. run_async. rewrite sweep_run. simpl.
    rewrite sweep_caches. apply filter_ext_in. intros [n c] Hin. simpl.
    rewrite superseded_spec.
    replace (bool_decide (n ∈ Store.keys (caches w))) with true.
    - by rewrite andb_true_r, negb_involutive.
    - symmetry. apply bool_decide_eq_true, list_elem_of_In.
      unfold Store.keys. apply (in_map fst _ _ Hin). }
  revert Hcaches. unfold onActivate. run_async. rewrite sweep_run. simpl.
  intros Hcaches. split; [done |]. split; [exact Hcaches |]. split.
  - intros name. rewrite Hcaches.
    exact (find_filter name
             (λ n, bool_decide (n ∈ [STATIC_CACHE; DYNAMIC_CACHE; CACHE_NAME])) (caches w)).
  - rewrite <- !app_assoc. simpl. do 4 f_equal.
    apply filter_ext. intros name. apply superseded_spec.
Qed.

Example onActivate_drops_old_generation :
  caches (onActivate Sample.before_activation).2
  = [(STATIC_CACHE, {["/" := Sample.fresh]}); (DYNAMIC_CACHE, ∅); (CACHE_NAME, ∅)].
Proof. vm_compute. reflexivity. Qed.

(** ** Background sync *)

Lemma nonempty_length {A} (l : list A) : l ≠ [] → (length l =? 0)%nat = false.
Proof. by destruct l. Qed.

(** X7: when the POST of a non-empty tournament batch fails in transport or
    is answered with a status that is not ok, [syncTournamentData] ends
    normally and registers a retry under the tournament tag. *)
Lemma syncTournamentData_failure_registers (db : DataStore) (net : Network) w :
  db "tournaments" ≠ [] →
  match outcome (net (post_request "/api/sync-tournaments"
                        (JSON_stringify (db "tournaments")))) with
  | Responds r => ok r = false
  | Fails => True
  end →
  (syncTournamentData db net w).1 = Normal () ∧
  log (syncTournamentData db net w).2
  = log w ++ [EvFetch "POST" "/api/sync-tournaments"; EvSyncRegister "sync-tournament-data"].
Proof.
  intros Hbatch Hfail. unfold syncTournamentData. run_async.
  rewrite (nonempty_length _ Hbatch).
  destruct (outcome _) as [r|]; simpl; [rewrite Hfail |]; settle.
Qed.

(** The player domain schedules one when the POST fails in transport. *)
Lemma syncPlayerData_network_error_registers (db : DataStore) (net : Network) w :
  db "players" ≠ [] →
  outcome (net (post_request "/api/sync-players" (JSON_stringify (db "players")))) = Fails →
  (syncPlayerData db net w).1 = Normal () ∧
  log (syncPlayerData db net w).2
  = log w ++ [EvFetch "POST" "/api/sync-players"; EvSyncRegister "sync-player-data"].
Proof.
  intros Hbatch Hfail. unfold syncPlayerData. run_async.
  rewrite (nonempty_length _ Hbatch), Hfail. settle.
Qed.

(** Were the data store to hold a player batch, a POST answered with a
    status that is not ok would end [syncPlayerData] normally with no retry
    registered: its test of [response.ok] has no [else] branch that throws,
    unlike the one of [syncTournamentData].  With the body [getStoredData]
    has in the source the batch is always empty and this path is never
    taken (see [sync_placeholder_store_idle]). *)
Lemma syncPlayerData_rejected_no_retry (db : DataStore) (net : Network) w r :
  db "players" ≠ [] →
  outcome (net (post_request "/api/sync-players" (JSON_stringify (db "players"))))
  = Responds r →
  ok r = false →
  (syncPlayerData db net w).1 = Normal () ∧
  log (syncPlayerData db net w).2 = log w ++ [EvFetch "POST" "/api/sync-players"].
Proof.
  intros Hbatch Hnet Hok. unfold syncPlayerData. run_async.
  rewrite (nonempty_length _ Hbatch), Hnet. simpl. by rewrite Hok.
Qed.

Lemma syncPlayerData_rejected_no_retry_witness :
  Sample.one_player "players" ≠ [] ∧
  outcome (Sample.refusing
             (post_request "/api/sync-players" (JSON_stringify (Sample.one_player "players"))))
  = Responds Sample.rejected ∧
  ok Sample.rejected = false ∧
  (syncPlayerData Sample.one_player Sample.refusing Sample.empty_world).1 = Normal () ∧
  log (syncPlayerData Sample.one_player Sample.refusing Sample.empty_world).2
  = [EvFetch "POST" "/api/sync-players"].
Proof.
  split; [discriminate |]. split; [reflexivity |]. split; [reflexivity |].
  apply (syncPlayerData_rejected_no_retry Sample.one_player Sample.refusing
           Sample.empty_world Sample.rejected); [discriminate | reflexivity | reflexivity].
Defined.

(** With the body [getStoredData] has in the source, every batch is empty:
    neither function reaches its POST, and the world is left as it was. *)
Lemma sync_placeholder_store_idle (net : Network) w :
  caches (syncTournamentData placeholder_store net w).2 = caches w ∧
  log (syncTournamentData placeholder_store net w).2 = log w ∧
  caches (syncPlayerData placeholder_store net w).2 = caches w ∧
  log (syncPlayerData placeholder_store net w).2 = log w.
Proof. done. Qed.

(** ** The install prompt *)

(** C10: [promptInstall] never throws.  With no deferred prompt stored it
    returns false and leaves the manager as it was.  With one stored it
    shows that prompt and, whether the user accepts or dismisses, [prompt()]
    throws or [userChoice] rejects, and whatever the page's listeners store
    meanwhile, it returns a boolean with the stored prompt cleared, so
    [getInstallationStatus] then reports [canInstall] as false. *)
Theorem promptInstall_clears_prompt (meanwhile : PWA.Manager → PWA.Manager)
    (b : PWA.Browser) (m : PWA.Manager) :
  let '(c, m') := PWA.promptInstall meanwhile m in
  match PWA.deferredPrompt m with
  | None => c = Normal false ∧ m' = m
  | Some e =>
      (∃ answer, c = Normal answer) ∧
      PWA.deferredPrompt m' = None ∧
      PWA.canInstall (PWA.getInstallationStatus b m') = false
  end.
Proof.
  unfold PWA.promptInstall.
  destruct (PWA.deferredPrompt m) as [e|] eqn:He; [| done].
  unfold PWA.try_catch_finally, PWA.call_prompt, PWA.await_userChoice,
    PWA.set_deferredPrompt, mbind, PWA.P_bind, mret, PWA.P_ret. simpl.
  destruct (PWA.prompt e) as [[]|]; simpl; [| by eauto].
  destruct (PWA.userChoice e) as [choice|]; simpl; [| by eauto].
  destruct (String.eqb choice "accepted"); simpl; by eauto.
Qed.

Example promptInstall_accepted :
  PWA.promptInstall id {| PWA.deferredPrompt := Some Sample.accepting_prompt;
                          PWA.isInstalled := false; PWA.shown := [] |}
  = (Normal true, {| PWA.deferredPrompt := None; PWA.isInstalled := false;
                     PWA.shown := [Sample.accepting_prompt] |}).
Proof. reflexivity. Qed.

(** The answer is true exactly when the prompt was shown without error and
    the user accepted. *)
Lemma promptInstall_answer (meanwhile : PWA.Manager → PWA.Manager) m e :
  PWA.deferredPrompt m = Some e →
  (PWA.promptInstall meanwhile m).1
  = Normal (match PWA.prompt e, PWA.userChoice e with
            | Normal _, Normal choice => String.eqb choice "accepted"
            | _, _ => false
            end).
Proof.
  intros He. unfold PWA.promptInstall. rewrite He.
  unfold PWA.try_catch_finally, PWA.call_prompt, PWA.await_userChoice,
    PWA.set_deferredPrompt, mbind, PWA.P_bind, mret, PWA.P_ret. simpl.
  destruct (PWA.prompt e) as [[]|]; simpl; [| done].
  destruct (PWA.userChoice e) as [choice|]; simpl; [| done].
  by destruct (String.eqb choice "accepted").
Qed.

(** * Further properties of the worker *)

(** ** The strategies, all four *)

Lemma find_open_other name n cs :
  name ≠ n → Store.find name (Store.open n cs) = Store.find name cs.
Proof.
  intros Hne. unfold Store.open. destruct (Store.find n cs); [done |].
  induction cs as [|[n' c] cs IH]; simpl.
  - by destruct (String.eqb_spec n name).
  - by destruct (String.eqb n' name).
Qed.

Lemma find_put_other name n url r cs :
  name ≠ n → Store.find name (Store.put n url r cs) = Store.find name cs.
Proof.
  intros Hne. induction cs as [|[n' c] cs IH]; simpl; [done |].
  destruct (String.eqb_spec n' n) as [-> | Hn]; simpl.
  - by destruct (String.eqb_spec n name).
  - destruct (String.eqb n' name); [done | exact IH].
Qed.

Lemma lookup_open_any name n url cs :
  Store.lookup name url (Store.open n cs) = Store.lookup name url cs.
Proof.
  destruct (String.eqb_spec name n) as [-> | Hne]; [apply lookup_open |].
  unfold Store.lookup. by rewrite find_open_other.
Qed.

(** X1: none of the four strategies hands [respondWith] a promise that
    rejects: whatever the request, the network and the caches, the strategy's
    promise fulfils (with a response, or with [undefined]). *)
Theorem run_strategy_never_rejects (net : Network) s request w :
  ∃ v, (run_strategy net s request w).1 = Normal v.
Proof.
  destruct s; simpl.
  - unfold cacheFirst. run_async.
    destruct (Store.match_any _ _); [by eauto |].
    destruct (outcome _) as [r|]; simpl; [| by eauto].
    destruct (ok r); simpl; by eauto.
  - unfold networkFirst. run_async.
    destruct (_ <=? _); simpl; [| by eauto].
    destruct (outcome _) as [r|]; simpl; [| by eauto].
    destruct (ok r); simpl; by eauto.
  - unfold staleWhileRevalidate. run_async.
    destruct (outcome _) as [r|]; simpl.
    + destruct (ok r); simpl; destruct (Store.lookup _ _ _); simpl; by eauto.
    + destruct (Store.lookup _ _ _); simpl; by eauto.
  - unfold networkFirstWithOffline. run_async.
    destruct (outcome _) as [r|]; simpl.
    + destruct (ok r); simpl; by eauto.
    + destruct (Store.match_any (url request) _); simpl; [by eauto |].
      destruct (String.eqb _ _); simpl; by eauto.
Qed.

(** X3: a strategy stores into one cache generation only, the STATIC one for
    [cacheFirst] and the DYNAMIC one for the other three: every generation of
    another name is, after the call, what it was before. *)
Theorem run_strategy_writes_own_cache_only (net : Network) s request w name :
  name ≠ own_cache s →
  Store.find name (caches (run_strategy net s request w).2) = Store.find name (caches w).
Proof.
  intros Hne. destruct s; simpl in Hne |- *.
  - unfold cacheFirst. run_async.
    destruct (Store.match_any _ _); [done |].
    destruct (outcome _) as [r|]; simpl; [| done].
    destruct (ok r); simpl; [| done].
    by rewrite find_put_other, find_open_other.
  - unfold networkFirst. run_async.
    destruct (_ <=? _); simpl; [| done].
    destruct (outcome _) as [r|]; simpl; [| done].
    destruct (ok r); simpl; [| done].
    by rewrite find_put_other, find_open_other.
  - unfold staleWhileRevalidate. run_async.
    destruct (outcome _) as [r|]; simpl.
    + destruct (ok r); simpl; destruct (Store.lookup _ _ _); simpl;
        rewrite ?find_put_other, ?find_open_other; done.
    + destruct (Store.lookup _ _ _); simpl; by rewrite find_open_other.
  - unfold networkFirstWithOffline. run_async.
    destruct (outcome _) as [r|]; simpl.
    + destruct (ok r); simpl; [| done].
      by rewrite find_put_other, find_open_other.
    + destruct (Store.match_any (url request) _); simpl; [done |].
      by destruct (String.eqb _ _).
Qed.

Lemma run_strategy_writes_own_cache_only_witness :
  STATIC_CACHE ≠ own_cache NETWORK_FIRST ∧
  Store.find STATIC_CACHE
    (caches (run_strategy (Sample.online 10) NETWORK_FIRST Sample.fonts_request
               Sample.fonts_in_dynamic).2)
  = Store.find STATIC_CACHE (caches Sample.fonts_in_dynamic).
Proof.
  split; [discriminate |].
  apply (run_strategy_writes_own_cache_only (Sample.online 10) NETWORK_FIRST
           Sample.fonts_request Sample.fonts_in_dynamic STATIC_CACHE).
  discriminate.
Defined.

(** X4: nothing is cached for a request the network fails, or answers with
    a status that is not ok: after any of the four strategies, every
    lookup in every cache generation finds what it found before. *)
Theorem run_strategy_failure_not_cached (net : Network) s request w name u :
  storable (net request) = false →
  Store.lookup name u (caches (run_strategy net s request w).2)
  = Store.lookup name u (caches w).
Proof.
  unfold storable. intros Hbad. destruct s; simpl.
  - unfold cacheFirst. run_async.
    destruct (Store.match_any _ _); [done |].
    destruct (outcome _) as [r|]; simpl; [| done]. by rewrite Hbad.
  - unfold networkFirst. run_async.
    destruct (_ <=? _); simpl; [| done].
    destruct (outcome _) as [r|]; simpl; [| done]. by rewrite Hbad.
  - unfold staleWhileRevalidate. run_async.
    destruct (outcome _) as [r|]; simpl.
    + rewrite Hbad. simpl. destruct (Store.lookup DYNAMIC_CACHE _ _); simpl;
        apply lookup_open_any.
    + destruct (Store.lookup DYNAMIC_CACHE _ _); simpl; apply lookup_open_any.
  - unfold networkFirstWithOffline. run_async.
    destruct (outcome _) as [r|]; simpl.
    + by rewrite Hbad.
    + destruct (Store.match_any (url request) _); simpl; [done |].
      by destruct (String.eqb _ _).
Qed.

Lemma run_strategy_failure_not_cached_witness :
  storable (Sample.refusing Sample.fonts_request) = false ∧
  Store.lookup DYNAMIC_CACHE (url Sample.fonts_request)
    (caches (run_strategy Sample.refusing STALE_WHILE_REVALIDATE Sample.fonts_request
               Sample.fonts_in_dynamic).2)
  = Some Sample.stale.
Proof.
  split; [reflexivity |].
  apply (run_strategy_failure_not_cached Sample.refusing STALE_WHILE_REVALIDATE
           Sample.fonts_request Sample.fonts_in_dynamic DYNAMIC_CACHE
           (url Sample.fonts_request)).
  reflexivity.
Defined.

Lemma cacheFirst_idempotent_witness :
  Store.match_any (url Sample.page_request) (caches Sample.empty_world) = None ∧
  outcome (Sample.online 10 Sample.page_request) = Responds Sample.fresh ∧
  ok Sample.fresh = true ∧
  (cacheFirst (Sample.online 10) Sample.page_request Sample.empty_world).1
  = Normal (Some Sample.fresh) ∧
  (cacheFirst Sample.offline Sample.page_request
     (cacheFirst (Sample.online 10) Sample.page_request Sample.empty_world).2).1
  = Normal (Some Sample.fresh) ∧
  log (cacheFirst Sample.offline Sample.page_request
         (cacheFirst (Sample.online 10) Sample.page_request Sample.empty_world).2).2
  = log (cacheFirst (Sample.online 10) Sample.page_request Sample.empty_world).2
    ++ [EvCachesMatch (url Sample.page_request)].
Proof.
  do 3 (split; [reflexivity |]).
  apply (cacheFirst_idempotent (Sample.online 10) Sample.offline Sample.page_request
           Sample.empty_world Sample.fresh); reflexivity.
Defined.

Lemma staleWhileRevalidate_then_fresh_witness :
  Store.lookup DYNAMIC_CACHE (url Sample.fonts_request) (caches Sample.fonts_in_dynamic)
  = Some Sample.stale ∧
  outcome (Sample.online 700 Sample.fonts_request) = Responds Sample.fresh ∧
  ok Sample.fresh = true ∧
  (staleWhileRevalidate Sample.offline Sample.fonts_request
     (staleWhileRevalidate (Sample.online 700) Sample.fonts_request
        Sample.fonts_in_dynamic).2).1
  = Normal (Some Sample.fresh).
Proof.
  do 3 (split; [reflexivity |]).
  apply (staleWhileRevalidate_then_fresh (Sample.online 700) Sample.offline
           Sample.fonts_request Sample.fonts_in_dynamic Sample.stale Sample.fresh);
    reflexivity.
Defined.

(** X9: [networkFirstWithOffline], case by case.  A response from the
    network is returned whatever the caches hold, and stored in the DYNAMIC
    cache when its status is ok.  When the fetch fails the caches are left as
    they are and the answer is the entry [caches.match] finds for the
    request; failing that, for a navigation, whatever is cached for the
    offline document, and for any other request the synthetic 503. *)
Theorem networkFirstWithOffline_cases (net : Network) request w :
  let u := url request in
  let '(c, w') := networkFirstWithOffline net request w in
  now w' = now w + latency (net request) ∧
  match outcome (net request) with
  | Responds r =>
      c = Normal (Some r) ∧
      caches w' = if ok r then Store.put DYNAMIC_CACHE u r (Store.open DYNAMIC_CACHE (caches w))
                  else caches w
  | Fails =>
      caches w' = caches w ∧
      c = Normal
            match Store.match_any u (caches w) with
            | Some hit => Some hit
            | None =>
                if String.eqb (mode request) "navigate"
                then Store.match_any OFFLINE_PAGE (caches w)
                else Some offline_response
            end
  end.
Proof.
  unfold networkFirstWithOffline. run_async.
  destruct (outcome (net request)) as [r|]; simpl.
  - destruct (ok r); settle.
  - destruct (Store.match_any (url request) (caches w)); simpl; [settle |].
    destruct (String.eqb (mode request) "navigate"); settle.
Qed.

(** X10: on a miss in the DYNAMIC cache the caller of [staleWhileRevalidate]
    waits for the network: the promise settles when the fetch does, with the
    network's response, stored when its status is ok.  The DYNAMIC cache is
    created by the call even when nothing is stored in it. *)
Theorem staleWhileRevalidate_miss (net : Network) request w :
  Store.lookup DYNAMIC_CACHE (url request) (caches w) = None →
  let u := url request in
  let '(c, w') := staleWhileRevalidate net request w in
  now w' = now w + latency (net request) ∧
  match outcome (net request) with
  | Responds r =>
      c = Normal (Some r) ∧
      caches w' = if ok r then Store.put DYNAMIC_CACHE u r (Store.open DYNAMIC_CACHE (caches w))
                  else Store.open DYNAMIC_CACHE (caches w)
  | Fails => c = Normal None ∧ caches w' = Store.open DYNAMIC_CACHE (caches w)
  end.
Proof.
  intros Hmiss. unfold staleWhileRevalidate. run_async.
  rewrite lookup_open, Hmiss.
  destruct (outcome (net request)) as [r|]; simpl; [| settle].
  destruct (ok r); settle.
Qed.

Lemma staleWhileRevalidate_miss_witness :
  Store.lookup DYNAMIC_CACHE (url Sample.page_request) (caches Sample.fonts_in_dynamic) = None ∧
  let '(c, w') :=
    staleWhileRevalidate (Sample.online 700) Sample.page_request Sample.fonts_in_dynamic in
  now w' = 700 ∧ c = Normal (Some Sample.fresh) ∧
  caches w' = Store.put DYNAMIC_CACHE (url Sample.page_request) Sample.fresh
                (caches Sample.fonts_in_dynamic).
Proof.
  split; [reflexivity |].
  exact (staleWhileRevalidate_miss (Sample.online 700) Sample.page_request
           Sample.fonts_in_dynamic eq_refl).
Defined.

(** X11: what [networkFirst] stored while the network answered in time, it
    serves when the network is gone, provided no cache generation had an
    entry for the request before (an older entry in an earlier generation
    would be found first). *)
Theorem networkFirst_falls_back_on_stored (net net' : Network) request w r :
  Store.match_any (url request) (caches w) = None →
  latency (net request) ≤ NETWORK_TIMEOUT →
  outcome (net request) = Responds r → ok r = true →
  outcome (net' request) = Fails →
  (networkFirst net' request (networkFirst net request w).2).1 = Normal (Some r).
Proof.
  intros Hmiss Hfast Hnet Hok Hdown.
  pose proof (networkFirst_run net request w) as H. simpl in H.
  destruct (networkFirst net request w) as [c w'].
  apply N.leb_le in Hfast. rewrite Hfast, Hnet, Hok in H.
  destruct H as (_ & _ & Hc & _). simpl.
  pose proof (networkFirst_run net' request w') as H'. simpl in H'.
  destruct (networkFirst net' request w') as [c' w'']. simpl.
  rewrite Hdown, Hc, (match_any_put_open _ _ _ _ Hmiss) in H'.
  destruct (latency (net' request) <=? NETWORK_TIMEOUT).
  - by destruct H' as (_ & -> & _).
  - by destruct H' as (_ & -> & _).
Qed.

Lemma networkFirst_falls_back_on_stored_witness :
  Store.match_any (url Sample.page_request) (caches Sample.empty_world) = None ∧
  latency (Sample.online 10 Sample.page_request) ≤ NETWORK_TIMEOUT ∧
  outcome (Sample.online 10 Sample.page_request) = Responds Sample.fresh ∧
  ok Sample.fresh = true ∧
  outcome (Sample.offline Sample.page_request) = Fails ∧
  (networkFirst Sample.offline Sample.page_request
     (networkFirst (Sample.online 10) Sample.page_request Sample.empty_world).2).1
  = Normal (Some Sample.fresh).
Proof.
  split; [reflexivity |]. split; [by vm_compute |]. do 3 (split; [reflexivity |]).
  apply (networkFirst_falls_back_on_stored (Sample.online 10) Sample.offline
           Sample.page_request Sample.empty_world Sample.fresh);
    [reflexivity | by vm_compute | reflexivity | reflexivity | reflexivity].
Defined.

(** ** Installation *)

Lemma fetch_all_run (rqs : list Request) w :
  foldl (λ w request, record (EvFetch (method request) (url request)) w) w rqs
  = {| caches := caches w; now := now w;
       log := log w ++ ((λ rq, EvFetch (method rq) (url rq)) <$> rqs) |}.
Proof.
  revert w. induction rqs as [|rq rqs IH]; intros w; simpl.
  - rewrite app_nil_r. by destruct w.
  - rewrite IH. simpl. by rewrite <- app_assoc.
Qed.




Lemma find_put_is_Some name n u r cs :
  is_Some (Store.find name cs) → is_Some (Store.find name (Store.put n u r cs)).
Proof.
  induction cs as [|[n' c] cs IH]; simpl; [done |].
  destruct (String.eqb n' n); simpl; destruct (String.eqb n' name); eauto.
Qed.



Section PutAll.

Variable net : Network.
Variable cache : string.

Let put_reply (cs : CacheStorage) (rq : Request) : CacheStorage :=
  match outcome (net rq) with
  | Responds r => Store.put cache (url rq) r cs
  | Fails => cs
  end.

Lemma put_all_find_is_Some rqs cs :
  is_Some (Store.find cache cs) → is_Some (Store.find cache (foldl put_reply cs rqs)).
Proof.
  revert cs. induction rqs as [|rq rqs IH]; intros cs Hf; simpl; [done |].
  apply IH. unfold put_reply. destruct (outcome (net rq)); [| done].
  by apply find_put_is_Some.
Qed.





End PutAll.


Lemma foldr_max_lt (l : list N) b :
  0 < b → Forall (λ x, x < b) l → foldr N.max 0 l < b.
Proof. intros Hb. induction 1; simpl; lia. Qed.

Lemma foldr_max_ge (l : list N) x : x ∈ l → x ≤ foldr N.max 0 l.
Proof.
  induction l as [|y l IH]; simpl; [by intros ?%elem_of_nil |].
  intros [-> | Hin]%elem_of_cons; [lia |]. specialize (IH Hin). lia.
Qed.


Lemma foldr_min_gt (l : list N) b t :
  t < b → Forall (λ x, t < x) l → t < foldr N.min b l.
Proof. intros Hb. induction 1; simpl; lia. Qed.


Lemma addAll_refused (net : Network) cache rqs w :
  forallb storable (net <$> rqs) = false →
  cache_addAll net cache rqs w
  = (Normal (mkPromise
               (now w + foldr N.min
                          (latency (default (mkReply 0 Fails)
                                      (head (List.filter (λ reply, negb (storable reply))
                                               (net <$> rqs)))))
                          (latency <$> List.filter (λ reply, negb (storable reply))
                                         (net <$> rqs)))
               (Throw "TypeError")),
     {| caches := caches w; now := now w;
        log := log w ++ ((λ rq, EvFetch (method rq) (url rq)) <$> rqs) |}).
Proof.
  intros Hsome. unfold cache_addAll. by rewrite Hsome, fetch_all_run.
Qed.

Ltac run_install :=
  unfold onInstall, mbind, M_bind, caches_open, promise_then, resolved, await,
    resolve_after, skip_waiting, promise_race;
  cbn [settled settles_at fst snd].

Ltac world_eq :=
  unfold resolved, with_now, with_caches, record;
  cbn [settled settles_at fst snd now caches log].


Lemma onInstall_refused (net : Network) w :
  forallb storable (net <$> (reload_request <$> STATIC_ASSETS)) = false →
  let early := foldr N.min
                 (latency (default (mkReply 0 Fails)
                    (head (List.filter (λ reply, negb (storable reply))
                             (net <$> (reload_request <$> STATIC_ASSETS))))))
                 (latency <$> List.filter (λ reply, negb (storable reply))
                                (net <$> (reload_request <$> STATIC_ASSETS))) in
  onInstall net w
  = (if early <=? INSTALL_TIMEOUT then Throw "TypeError" else Normal (),
     {| caches := Store.open STATIC_CACHE (caches w);
        now := now w + N.min early INSTALL_TIMEOUT;
        log := (log w ++ [EvCachesOpen STATIC_CACHE])
               ++ ((λ rq, EvFetch (method rq) (url rq)) <$> (reload_request <$> STATIC_ASSETS)) |}).
Proof.
  intros Hsome early. run_install. rewrite (addAll_refused _ _ _ _ Hsome). world_eq.
  fold early.
  replace (_ <=? now w + INSTALL_TIMEOUT) with (early <=? INSTALL_TIMEOUT).
  2:{ apply eq_true_iff_eq. rewrite !N.leb_le. lia. }
  destruct (early <=? INSTALL_TIMEOUT) eqn:Hrace; world_eq.
  - apply N.leb_le in Hrace. do 2 f_equal. lia.
  - apply N.leb_gt in Hrace. do 2 f_equal. lia.
Qed.

Lemma refused_nonempty (replies : list Reply) :
  forallb storable replies = false →
  ∃ reply, head (List.filter (λ reply, negb (storable reply)) replies) = Some reply
           ∧ reply ∈ replies ∧ storable reply = false.
Proof.
  induction replies as [|x l IH]; simpl; [done |].
  destruct (storable x) eqn:Hx; simpl.
  - intros H. destruct (IH H) as (reply & Hh & Hin & Hr).
    exists reply. split; [done |]. split; [by right | done].
  - intros _. exists x. split; [done |]. split; [left | done].
Qed.





(** X14: when every refusal arrives after the 10 s timer, the timer wins the
    race and the install promise fulfils at 10 s although the population
    fails: nothing is stored and [skipWaiting] is not called. *)
Theorem onInstall_timer_masks_late_refusal (net : Network) w :
  forallb (λ a, storable (net (reload_request a))) STATIC_ASSETS = false →
  forallb (λ a, storable (net (reload_request a))
                || (INSTALL_TIMEOUT <? latency (net (reload_request a))))
    STATIC_ASSETS = true →
  let '(c, w') := onInstall net w in
  c = Normal () ∧ now w' = now w + INSTALL_TIMEOUT ∧
  caches w' = Store.open STATIC_CACHE (caches w) ∧
  log w' = (log w ++ [EvCachesOpen STATIC_CACHE])
           ++ ((λ a, EvFetch "GET" a) <$> STATIC_ASSETS).
Proof.
  intros Hsome Hlate.
  assert (forallb storable (net <$> (reload_request <$> STATIC_ASSETS)) = false) as Hsome'.
  { rewrite <- Hsome. reflexivity. }
  rewrite (onInstall_refused net w Hsome').
  assert (∀ reply, In reply (List.filter (λ reply, negb (storable reply))
                               (net <$> (reload_request <$> STATIC_ASSETS))) →
                   INSTALL_TIMEOUT < latency reply) as Hall.
  { intros reply [Hin Hbad]%filter_In.
    apply in_map_iff in Hin as (rq & <- & Hin).
    apply in_map_iff in Hin as (a & <- & Hin).
    rewrite forallb_forall in Hlate. specialize (Hlate a Hin).
    apply negb_true_iff in Hbad. rewrite Hbad in Hlate. by apply N.ltb_lt in Hlate. }
  destruct (refused_nonempty _ Hsome') as (first & Hhead & Hfirst & Hbad).
  match goal with |- context [?e <=? INSTALL_TIMEOUT] => assert (INSTALL_TIMEOUT < e) as He end.
  { apply foldr_min_gt.
    - rewrite Hhead. simpl. apply Hall, filter_In. split.
      + by apply list_elem_of_In.
      + by rewrite Hbad.
    - apply Forall_fmap, Forall_forall. intros reply Hin. simpl.
      by apply Hall, list_elem_of_In. }
  pose proof He as He'. apply N.leb_gt in He'. rewrite He'.
  split; [done |]. split; [cbn [now]; f_equal; lia |]. done.
Qed.

Lemma onInstall_timer_masks_late_refusal_witness :
  forallb (λ a, storable ((λ _, mkReply 12000 Fails) (reload_request a))) STATIC_ASSETS
  = false ∧
  forallb (λ a, storable ((λ _, mkReply 12000 Fails) (reload_request a))
                || (INSTALL_TIMEOUT <? latency ((λ _, mkReply 12000 Fails) (reload_request a))))
    STATIC_ASSETS = true ∧
  let '(c, w') := onInstall (λ _, mkReply 12000 Fails) Sample.empty_world in
  c = Normal () ∧ now w' = 10000 ∧ caches w' = [(STATIC_CACHE, ∅)].
Proof.
  split; [reflexivity |]. split; [reflexivity |].
  destruct (onInstall_timer_masks_late_refusal (λ _, mkReply 12000 Fails)
              Sample.empty_world eq_refl eq_refl) as (Hc & Hn & Hs & _).
  split; [exact Hc |]. split; [exact Hn | exact Hs].
Defined.



(** A navigation for the index page, or for the origin's root, is one for a
    static asset, and is not covered. *)
Example index_page_names_static_asset :
  existsb (λ a, ends_with "https://padel.example/index.html" a) STATIC_ASSETS = true ∧
  existsb (λ a, ends_with "https://padel.example/" a) STATIC_ASSETS = true.
Proof. split; reflexivity. Qed.


(** ** Cache reset, activation twice, control messages *)

Lemma delete_all_run names w :
  for_each (λ cacheName, caches_delete cacheName ≫= await) names w
  = (Normal (),
     {| caches := foldl (λ cs name, Store.delete name cs) (caches w) names;
        now := now w;
        log := log w ++ (EvCachesDelete <$> names) |}).
Proof.
  revert w. induction names as [|name names IH]; intros w; simpl.
  - rewrite app_nil_r. by destruct w.
  - unfold mbind, M_bind at 1. run_async.
    rewrite IH, N.max_id. simpl. by rewrite <- app_assoc.
Qed.

Lemma delete_all_caches names (cs : CacheStorage) :
  foldl (λ cs name, Store.delete name cs) cs names
  = List.filter (λ nc, negb (bool_decide (nc.1 ∈ names))) cs.
Proof.
  revert cs. induction names as [|name names IH]; intros cs; simpl.
  - symmetry. apply forallb_filter_id, forallb_forall. by intros nc _.
  - rewrite IH. unfold Store.delete. rewrite filter_filter. apply filter_ext.
    intros [n c]. simpl.
    destruct (String.eqb_spec n name) as [-> | Hne]; simpl.
    + by rewrite bool_decide_eq_true_2 by left.
    + f_equal. apply bool_decide_ext. rewrite elem_of_cons.
      split; [by right | by intros [? | ?]].
Qed.

Lemma filter_none {A} (p : A → bool) l :
  (∀ x, In x l → p x = false) → List.filter p l = [].
Proof.
  induction l as [|x l IH]; simpl; [done |]. intros H.
  rewrite (H x) by by left. apply IH. intros y Hy. apply H. by right.
Qed.

Lemma clearAllCaches_run w :
  clearAllCaches w
  = (Normal (),
     {| caches := []; now := now w;
        log := log w ++ EvCachesKeys :: (EvCachesDelete <$> Store.keys (caches w)) |}).
Proof.
  unfold clearAllCaches. unfold mbind, M_bind at 1. run_async.
  rewrite delete_all_run. simpl. rewrite N.max_id, <- app_assoc. simpl.
  do 2 f_equal. rewrite delete_all_caches.
  apply filter_none. intros [n c] Hin. simpl.
  rewrite bool_decide_eq_true_2; [done |].
  apply list_elem_of_In. by apply (in_map fst _ _ Hin).
Qed.

(** X16: [clearAllCaches] deletes every cache generation, current ones
    included: afterwards the Cache Store is empty, and one delete was issued
    per listed name. *)
Theorem clearAllCaches_empties w :
  let '(c, w') := clearAllCaches w in
  c = Normal () ∧ caches w' = [] ∧
  log w' = log w ++ EvCachesKeys :: (EvCachesDelete <$> Store.keys (caches w)) ∧
  ∀ u, Store.match_any u (caches w') = None.
Proof.
  unfold clearAllCaches. unfold mbind, M_bind at 1. run_async.
  rewrite delete_all_run, delete_all_caches. simpl.
  rewrite (filter_none _ (caches w)).
  - rewrite <- app_assoc. by repeat split.
  - intros [n c] Hin. simpl. rewrite bool_decide_eq_true_2; [done |].
    apply list_elem_of_In. by apply (in_map fst _ _ Hin).
Qed.

Lemma onActivate_run w :
  onActivate w
  = (Normal (),
     {| caches := List.filter (λ nc, negb (superseded nc.1)) (caches w);
        now := now w;
        log := log w ++ [EvCachesKeys; EvClientsClaim]
               ++ (EvCachesDelete <$> List.filter superseded (Store.keys (caches w))) |}).
Proof.
  unfold onActivate. run_async. rewrite sweep_run. simpl.
  rewrite !N.max_id, <- !app_assoc, sweep_caches. unfold with_now. simpl.
  do 2 f_equal. apply filter_ext_in. intros [n c] Hin. simpl.
  rewrite bool_decide_eq_true_2; [by rewrite andb_true_r |].
  apply list_elem_of_In. by apply (in_map fst _ _ Hin).
Qed.

(** X17: activation is idempotent: a second activation finds nothing to
    delete, issues no delete, and leaves the Cache Store as the first one
    left it. *)
Theorem onActivate_twice w :
  let w1 := (onActivate w).2 in
  let w2 := (onActivate w1).2 in
  caches w2 = caches w1 ∧ log w2 = log w1 ++ [EvCachesKeys; EvClientsClaim].
Proof.
  simpl. rewrite !onActivate_run. cbn [snd caches log]. split.
  - rewrite filter_filter. apply filter_ext. intros nc. by destruct (superseded nc.1).
  - f_equal. f_equal. f_equal.
    induction (caches w) as [|[n c] cs IH]; simpl; [done |].
    destruct (superseded n) eqn:Hn; simpl; [exact IH |]. by rewrite Hn.
Qed.

(** X18: a control message changes the Cache Store only when its type is
    CLEAR_CACHE, and then empties it; every other message, recognised or not,
    leaves every cache generation as it is. *)
Theorem onMessage_caches type ports w :
  caches (onMessage type ports w).2
  = match type with
    | Some t => if String.eqb t "CLEAR_CACHE" then [] else caches w
    | None => caches w
    end.
Proof.
  destruct type as [t|]; [| done]. unfold onMessage.
  destruct (String.eqb_spec t "SKIP_WAITING") as [-> | _]; [done |].
  destruct (String.eqb_spec t "GET_VERSION") as [-> | _]; [by destruct ports |].
  destruct (String.eqb t "CLEAR_CACHE"); [| done].
  unfold mbind, M_bind. by rewrite clearAllCaches_run.
Qed.

(** X19: the version query is the one message that is answered, with the
    umbrella cache name, and the one that can fail: without a reply port the
    listener throws.  Every other message completes with no reply. *)
Theorem onMessage_reply type ports w :
  (onMessage type ports w).1
  = match type with
    | Some t =>
        if String.eqb t "GET_VERSION" then
          match ports with
          | O => Throw "TypeError"
          | S _ => Normal (Some CACHE_NAME)
          end
        else Normal None
    | None => Normal None
    end.
Proof.
  destruct type as [t|]; [| done]. unfold onMessage.
  destruct (String.eqb_spec t "SKIP_WAITING") as [-> | _]; [done |].
  destruct (String.eqb t "GET_VERSION"); [by destruct ports |].
  destruct (String.eqb t "CLEAR_CACHE"); [| done].
  unfold mbind, M_bind. by rewrite clearAllCaches_run.
Qed.

(** Every click on a notification closes it, and opens a window on the
    application root unless the action is [dismiss]. *)
Lemma onNotificationClick_effects action :
  head (onNotificationClick action) = Some CloseNotification ∧
  (OpenWindow "/" ∈ onNotificationClick action ↔ action ≠ "dismiss").
Proof.
  unfold onNotificationClick. split; [done |].
  destruct (String.eqb_spec action "view") as [-> | _].
  - rewrite !elem_of_cons. split; [done | by eauto].
  - destruct (String.eqb_spec action "dismiss") as [-> | Hne].
    + rewrite !elem_of_cons, elem_of_nil. split; [| done]. by intros [? | []].
    + rewrite !elem_of_cons. split; [done | by eauto].
Qed.

(** ** Background sync, both domains *)

Lemma syncTournamentData_failure_registers_witness :
  Scenario.one_tournament "tournaments" ≠ [] ∧
  (syncTournamentData Scenario.one_tournament Sample.refusing Sample.empty_world).1
  = Normal () ∧
  log (syncTournamentData Scenario.one_tournament Sample.refusing Sample.empty_world).2
  = [EvFetch "POST" "/api/sync-tournaments"; EvSyncRegister "sync-tournament-data"].
Proof.
  split; [discriminate |].
  apply (syncTournamentData_failure_registers Scenario.one_tournament Sample.refusing
           Sample.empty_world); [discriminate | reflexivity].
Defined.

(** X21: a batch the endpoint accepts is announced to the pages as
    SYNC_SUCCESS with the domain's name, and no retry is registered; this
    holds for the tournament and for the player domain. *)
Theorem sync_success_broadcasts (db : DataStore) (net : Network) w rt rp :
  db "tournaments" ≠ [] → db "players" ≠ [] →
  outcome (net (post_request "/api/sync-tournaments" (JSON_stringify (db "tournaments"))))
  = Responds rt →
  outcome (net (post_request "/api/sync-players" (JSON_stringify (db "players"))))
  = Responds rp →
  ok rt = true → ok rp = true →
  log (syncTournamentData db net w).2
  = log w ++ [EvFetch "POST" "/api/sync-tournaments"; EvBroadcast "SYNC_SUCCESS" "tournaments"] ∧
  log (syncPlayerData db net w).2
  = log w ++ [EvFetch "POST" "/api/sync-players"; EvBroadcast "SYNC_SUCCESS" "players"].
Proof.
  intros Ht Hp Hnt Hnp Hokt Hokp. split.
  - unfold syncTournamentData. run_async.
    rewrite (nonempty_length _ Ht), Hnt. simpl. rewrite Hokt. settle.
  - unfold syncPlayerData. run_async.
    rewrite (nonempty_length _ Hp), Hnp. simpl. rewrite Hokp. settle.
Qed.

Lemma sync_success_broadcasts_witness :
  Scenario.both_domains "tournaments" ≠ [] ∧ Scenario.both_domains "players" ≠ [] ∧
  log (syncTournamentData Scenario.both_domains (Sample.online 10) Sample.empty_world).2
  = [EvFetch "POST" "/api/sync-tournaments"; EvBroadcast "SYNC_SUCCESS" "tournaments"] ∧
  log (syncPlayerData Scenario.both_domains (Sample.online 10) Sample.empty_world).2
  = [EvFetch "POST" "/api/sync-players"; EvBroadcast "SYNC_SUCCESS" "players"].
Proof.
  split; [discriminate |]. split; [discriminate |].
  apply (sync_success_broadcasts Scenario.both_domains (Sample.online 10)
           Sample.empty_world Sample.fresh Sample.fresh);
    [discriminate | discriminate | reflexivity | reflexivity | reflexivity | reflexivity].
Defined.

(** X22: with nothing stored locally for either domain, a sync event or a
    periodic sync event of any tag does nothing: no request is sent, no
    retry is registered, no message is broadcast and no cache is touched. *)
Theorem sync_empty_batches_idle (db : DataStore) (net : Network) tag w :
  db "tournaments" = [] → db "players" = [] →
  log (onSync db net tag w).2 = log w ∧ caches (onSync db net tag w).2 = caches w ∧
  log (onPeriodicSync db net tag w).2 = log w ∧
  caches (onPeriodicSync db net tag w).2 = caches w.
Proof.
  intros Ht Hp. unfold onSync, onPeriodicSync, syncTournamentData, syncPlayerData.
  run_async. rewrite Ht, Hp. simpl.
  destruct (String.eqb tag "sync-tournament-data"), (String.eqb tag "sync-player-data"),
    (String.eqb tag "tournament-sync"); done.
Qed.

Lemma sync_empty_batches_idle_witness :
  placeholder_store "tournaments" = [] ∧ placeholder_store "players" = [] ∧
  log (onSync placeholder_store Sample.offline "sync-player-data" Sample.fonts_in_dynamic).2
  = [] ∧
  caches (onSync placeholder_store Sample.offline "sync-player-data" Sample.fonts_in_dynamic).2
  = caches Sample.fonts_in_dynamic ∧
  log (onPeriodicSync placeholder_store Sample.offline "sync-player-data"
         Sample.fonts_in_dynamic).2 = [] ∧
  caches (onPeriodicSync placeholder_store Sample.offline "sync-player-data"
            Sample.fonts_in_dynamic).2 = caches Sample.fonts_in_dynamic.
Proof.
  do 2 (split; [reflexivity |]).
  apply (sync_empty_batches_idle placeholder_store Sample.offline "sync-player-data"
           Sample.fonts_in_dynamic); reflexivity.
Defined.

(** X23: the sync listeners swallow every failure: whatever the tag, the
    stored batches and the network, the promise given to [waitUntil]
    fulfils. *)
Theorem onSync_never_rejects (db : DataStore) (net : Network) tag w :
  (onSync db net tag w).1 = Normal () ∧ (onPeriodicSync db net tag w).1 = Normal ().
Proof.
  assert ((syncTournamentData db net w).1 = Normal ()) as Ht.
  { unfold syncTournamentData. run_async.
    destruct (length (db "tournaments") =? 0)%nat; [done |].
    destruct (outcome _) as [r|]; simpl; [| done]. by destruct (ok r). }
  assert ((syncPlayerData db net w).1 = Normal ()) as Hp.
  { unfold syncPlayerData. run_async.
    destruct (length (db "players") =? 0)%nat; [done |].
    destruct (outcome _) as [r|]; simpl; [| done]. by destruct (ok r). }
  unfold onSync, onPeriodicSync.
  destruct (String.eqb tag "sync-tournament-data"), (String.eqb tag "sync-player-data"),
    (String.eqb tag "tournament-sync"); done.
Qed.

(** X24: the retry a sync function registers comes back to the same
    function: the tag it gives the scheduler is the one for which the sync
    listener runs that function again. *)
Theorem retry_tag_reruns_same_sync (db db' : DataStore) (net net' : Network) w tag :
  EvSyncRegister tag ∉ log w →
  (EvSyncRegister tag ∈ log (syncTournamentData db net w).2 →
   onSync db' net' tag = syncTournamentData db' net') ∧
  (EvSyncRegister tag ∈ log (syncPlayerData db net w).2 →
   onSync db' net' tag = syncPlayerData db' net').
Proof.
  intros Hnew. split.
  - unfold syncTournamentData. run_async.
    destruct (length (db "tournaments") =? 0)%nat; [done |].
    destruct (outcome _) as [r|]; simpl; [destruct (ok r); simpl |];
      rewrite ?elem_of_app, ?elem_of_cons, ?elem_of_nil;
      intros H; decompose [or] H; clear H; try done; by simplify_eq.
  - unfold syncPlayerData. run_async.
    destruct (length (db "players") =? 0)%nat; [done |].
    destruct (outcome _) as [r|]; simpl; [destruct (ok r); simpl |];
      rewrite ?elem_of_app, ?elem_of_cons, ?elem_of_nil;
      intros H; decompose [or] H; clear H; try done; by simplify_eq.
Qed.

Lemma retry_tag_reruns_same_sync_witness :
  (EvSyncRegister "sync-tournament-data" ∉ log Sample.empty_world) ∧
  EvSyncRegister "sync-tournament-data"
    ∈ log (syncTournamentData Scenario.one_tournament Sample.offline Sample.empty_world).2 ∧
  onSync placeholder_store Sample.offline "sync-tournament-data"
  = syncTournamentData placeholder_store Sample.offline.
Proof.
  assert (EvSyncRegister "sync-tournament-data" ∉ log Sample.empty_world) as Hnew
    by apply not_elem_of_nil.
  split; [exact Hnew |].
  assert (EvSyncRegister "sync-tournament-data"
            ∈ log (syncTournamentData Scenario.one_tournament Sample.offline
                     Sample.empty_world).2) as Hin.
  { vm_compute. right. left. }
  split; [exact Hin |].
  exact (proj1 (retry_tag_reruns_same_sync Scenario.one_tournament placeholder_store
                  Sample.offline Sample.offline Sample.empty_world
                  "sync-tournament-data" Hnew) Hin).
Defined.

(** * Further properties of the page-side manager *)

Ltac run_page :=
  unfold Page.try_catch, Page.call, Page.settle, Page.showNotification,
    mbind, Page.Q_bind, mret, Page.Q_ret;
  simpl.

(** X25: a second call of [promptInstall] does nothing: whatever happened in
    the first one, and whatever the page's listeners stored while it waited,
    the next call returns false, shows no prompt and leaves the manager as
    it is. *)
Theorem promptInstall_second_call (meanwhile meanwhile' : PWA.Manager → PWA.Manager) m :
  let m1 := (PWA.promptInstall meanwhile m).2 in
  PWA.promptInstall meanwhile' m1 = (Normal false, m1).
Proof.
  intros m1.
  assert (PWA.deferredPrompt m1 = None) as Hnone.
  { unfold m1, PWA.promptInstall.
    destruct (PWA.deferredPrompt m) as [e|] eqn:He; [| done].
    unfold PWA.try_catch_finally, PWA.call_prompt, PWA.await_userChoice,
      PWA.set_deferredPrompt, mbind, PWA.P_bind, mret, PWA.P_ret. simpl.
    destruct (PWA.prompt e) as [[]|]; simpl; [| done].
    destruct (PWA.userChoice e) as [choice|]; simpl; [| done].
    by destruct (String.eqb choice "accepted"). }
  clearbody m1. unfold PWA.promptInstall. by rewrite Hnone.
Qed.

(** X26: [requestNotificationPermission] never throws.  It asks the browser
    exactly when notifications are supported and the permission is neither
    granted nor denied, and then once; it answers true exactly when the
    permission is granted already or the user grants it when asked. *)
Theorem requestNotificationPermission_cases (b : PWA.Browser) (pf : Page.Platform) l :
  Page.requestNotificationPermission b pf l
  = if PWA.notificationSupported b
       && negb (String.eqb (PWA.notificationPermission b) "granted")
       && negb (String.eqb (PWA.notificationPermission b) "denied")
    then (Normal match Page.requestPermission pf with
                 | Normal permission => String.eqb permission "granted"
                 | Throw _ => false
                 end,
          l ++ [Page.AskPermission])
    else (Normal (PWA.notificationSupported b
                  && String.eqb (PWA.notificationPermission b) "granted"), l).
Proof.
  unfold Page.requestNotificationPermission.
  destruct (PWA.notificationSupported b); simpl; [| done].
  destruct (String.eqb (PWA.notificationPermission b) "granted"); simpl; [done |].
  destruct (String.eqb (PWA.notificationPermission b) "denied"); simpl; [done |].
  run_page. by destruct (Page.requestPermission pf).
Qed.

(** X27: [triggerBackgroundSync] never throws.  With background sync
    available and the worker ready it registers the tournament tag, and the
    player tag only after that registration succeeded; otherwise it
    registers nothing. *)
Theorem triggerBackgroundSync_cases (pf : Page.Platform) l :
  Page.triggerBackgroundSync pf l
  = (Normal (),
     l ++ if Page.serviceWorker pf && Page.backgroundSync pf then
            match Page.ready pf with
            | Normal _ =>
                Page.RegisterSync "sync-tournament-data" ::
                match Page.register pf "sync-tournament-data" with
                | Normal _ => [Page.RegisterSync "sync-player-data"]
                | Throw _ => []
                end
            | Throw _ => []
            end
          else []).
Proof.
  unfold Page.triggerBackgroundSync.
  destruct (Page.serviceWorker pf && Page.backgroundSync pf); simpl;
    [| by rewrite app_nil_r].
  run_page. destruct (Page.ready pf) as [[]|]; simpl; [| by rewrite app_nil_r].
  destruct (Page.register pf "sync-tournament-data") as [[]|]; simpl; [| done].
  rewrite <- app_assoc. simpl.
  by destruct (Page.register pf "sync-player-data") as [[]|].
Qed.

(** X28: every sync tag the page registers is one the worker's sync
    listener recognises: the tournament tag runs [syncTournamentData], the
    player tag [syncPlayerData]. *)
Theorem page_sync_tags_are_handled (pf : Page.Platform) l tag
    (db : DataStore) (net : Network) :
  Page.RegisterSync tag ∉ l →
  Page.RegisterSync tag ∈ (Page.triggerBackgroundSync pf l).2 →
  (tag = "sync-tournament-data" ∧ onSync db net tag = syncTournamentData db net) ∨
  (tag = "sync-player-data" ∧ onSync db net tag = syncPlayerData db net).
Proof.
  intros Hnew. unfold Page.triggerBackgroundSync.
  destruct (Page.serviceWorker pf && Page.backgroundSync pf); simpl; [| done].
  run_page. destruct (Page.ready pf) as [[]|]; simpl; [| done].
  destruct (Page.register pf "sync-tournament-data") as [[]|]; simpl.
  - destruct (Page.register pf "sync-player-data") as [[]|]; simpl;
      rewrite !elem_of_app, !list_elem_of_singleton;
      intros [[? | ?] | ?]; try done; simplify_eq; by eauto.
  - rewrite !elem_of_app, !list_elem_of_singleton.
    intros [? | ?]; try done; simplify_eq; by eauto.
Qed.

Lemma page_sync_tags_are_handled_witness :
  (Page.RegisterSync "sync-player-data" ∉ []) ∧
  Page.RegisterSync "sync-player-data" ∈ (Page.triggerBackgroundSync Scenario.capable []).2 ∧
  onSync Sample.one_player Sample.offline "sync-player-data"
  = syncPlayerData Sample.one_player Sample.offline.
Proof.
  assert (Page.RegisterSync "sync-player-data" ∉ []) as Hnew by apply not_elem_of_nil.
  assert (Page.RegisterSync "sync-player-data"
            ∈ (Page.triggerBackgroundSync Scenario.capable []).2) as Hin.
  { vm_compute. right. left. }
  split; [exact Hnew |]. split; [exact Hin |].
  destruct (page_sync_tags_are_handled Scenario.capable [] "sync-player-data"
              Sample.one_player Sample.offline Hnew Hin) as [[Hneq _] | [_ Hrun]].
  - discriminate Hneq.
  - exact Hrun.
Defined.

(** X29: given a data object, [shareContent] never throws.  Where the share
    sheet exists its outcome is the answer, and a share that fails or is
    cancelled is not retried through the clipboard; the clipboard is used
    only where there is no share sheet, and only for data with a URL, with a
    toast on success. *)
Theorem shareContent_cases (url : string) (pf : Page.Platform) l :
  Page.shareContent url pf l
  = match Page.share pf with
    | Some answer =>
        (Normal (if answer is Normal _ then true else false), l ++ [Page.Share])
    | None =>
        match Page.clipboard pf, url with
        | Some writeText, String _ _ =>
            match writeText url with
            | Normal _ =>
                (Normal true,
                 l ++ [Page.ClipboardWrite url;
                       Page.Toast "Link copied to clipboard!" "success"])
            | Throw _ => (Normal false, l ++ [Page.ClipboardWrite url])
            end
        | _, _ => (Normal false, l)
        end
    end.
Proof.
  unfold Page.shareContent.
  destruct (Page.share pf) as [[[]|]|]; [by run_page | by run_page |].
  destruct (Page.clipboard pf) as [writeText|]; [| done].
  destruct url as [|a url]; [done |]. run_page.
  destruct (writeText (String a url)) as [[]|]; simpl; [| done].
  by rewrite <- app_assoc.
Qed.

(** X30: every message the worker broadcasts is one the page announces:
    whatever either sync function posts to the clients, the page's listener
    answers with the toast for a successful sync. *)
Theorem worker_broadcast_is_announced (db : DataStore) (net : Network) w type data l :
  EvBroadcast type data ∉ log w →
  EvBroadcast type data ∈ log (syncTournamentData db net w).2
  ∨ EvBroadcast type data ∈ log (syncPlayerData db net w).2 →
  Page.onWorkerMessage type l
  = (Normal (), l ++ [Page.Toast "Data synced successfully" "success"]).
Proof.
  intros Hnew [Hin | Hin]; revert Hin.
  - unfold syncTournamentData. run_async.
    destruct (length (db "tournaments") =? 0)%nat; [done |].
    destruct (outcome _) as [r|]; simpl; [destruct (ok r); simpl |];
      rewrite ?elem_of_app, ?elem_of_cons, ?elem_of_nil;
      intros H; decompose [or] H; clear H; try done; by simplify_eq.
  - unfold syncPlayerData. run_async.
    destruct (length (db "players") =? 0)%nat; [done |].
    destruct (outcome _) as [r|]; simpl; [destruct (ok r); simpl |];
      rewrite ?elem_of_app, ?elem_of_cons, ?elem_of_nil;
      intros H; decompose [or] H; clear H; try done; by simplify_eq.
Qed.

Lemma worker_broadcast_is_announced_witness :
  (EvBroadcast "SYNC_SUCCESS" "players" ∉ log Sample.empty_world) ∧
  EvBroadcast "SYNC_SUCCESS" "players"
    ∈ log (syncPlayerData Scenario.both_domains (Sample.online 10) Sample.empty_world).2 ∧
  Page.onWorkerMessage "SYNC_SUCCESS" []
  = (Normal (), [Page.Toast "Data synced successfully" "success"]).
Proof.
  assert (EvBroadcast "SYNC_SUCCESS" "players" ∉ log Sample.empty_world) as Hnew
    by apply not_elem_of_nil.
  assert (EvBroadcast "SYNC_SUCCESS" "players"
            ∈ log (syncPlayerData Scenario.both_domains (Sample.online 10)
                     Sample.empty_world).2) as Hin.
  { vm_compute. right. left. }
  split; [exact Hnew |]. split; [exact Hin |].
  exact (worker_broadcast_is_announced Scenario.both_domains (Sample.online 10)
           Sample.empty_world "SYNC_SUCCESS" "players" [] Hnew (or_intror Hin)).
Defined.

(** The listeners and the update check complete whatever the browser does. *)
Lemma manager_listeners_never_throw (pf : Page.Platform) l :
  (Page.checkForUpdates pf l).1 = Normal () ∧
  (Page.onOnline pf l).1 = Normal () ∧
  (Page.onOffline l).1 = Normal ().
Proof.
  split; [| split; [| done]].
  - unfold Page.checkForUpdates. destruct (Page.serviceWorker pf); [| done].
    run_page. destruct (Page.getRegistration pf) as [[[[]|]|]|]; done.
  - unfold Page.onOnline, Page.triggerBackgroundSync. run_page.
    destruct (Page.serviceWorker pf && Page.backgroundSync pf); [| done].
    run_page. destruct (Page.ready pf) as [[]|]; simpl; [| done].
    destruct (Page.register pf "sync-tournament-data") as [[]|]; simpl; [| done].
    by destruct (Page.register pf "sync-player-data") as [[]|].
Qed.

(** ** The install button *)

Lemma promptInstall_clears (meanwhile : PWA.Manager → PWA.Manager) m e :
  PWA.deferredPrompt m = Some e →
  PWA.deferredPrompt (PWA.promptInstall meanwhile m).2 = None.
Proof.
  intros He. unfold PWA.promptInstall. rewrite He.
  unfold PWA.try_catch_finally, PWA.call_prompt, PWA.await_userChoice,
    PWA.set_deferredPrompt, mbind, PWA.P_bind, mret, PWA.P_ret. simpl.
  destruct (PWA.prompt e) as [[]|]; simpl; [| done].
  destruct (PWA.userChoice e) as [choice|]; simpl; [| done].
  by destruct (String.eqb choice "accepted").
Qed.

Lemma promptInstall_nothing_stored (meanwhile : PWA.Manager → PWA.Manager) m :
  PWA.deferredPrompt m = None → PWA.promptInstall meanwhile m = (Normal false, m).
Proof. intros Hnone. unfold PWA.promptInstall. by rewrite Hnone. Qed.

Lemma step_keeps_button_shown v ev :
  (is_Some (PWA.deferredPrompt (Page.manager v)) → Page.installBtn v = Some "block") →
  is_Some (PWA.deferredPrompt (Page.manager (Page.step v ev))) →
  Page.installBtn (Page.step v ev) = Some "block".
Proof.
  intros Hinv. destruct ev as [[e|] | during]; simpl.
  - done.
  - by intros [? ?].
  - unfold Page.onClickInstall. destruct (Page.installBtn v) as [d|] eqn:Hbtn.
    + simpl. destruct (PWA.deferredPrompt (Page.manager v)) as [e|] eqn:He.
      * rewrite (promptInstall_clears _ _ e He). by intros [? ?].
      * rewrite promptInstall_nothing_stored by done. simpl. rewrite He.
        by intros [? ?].
    + intros Hsome. specialize (Hinv Hsome). congruence.
Qed.

(** X20: whenever an install is possible the install button is displayed:
    from the start of the page, through any sequence of
    [beforeinstallprompt] and [appinstalled] events and clicks on the
    button, a stored prompt goes with a button whose display is [block]. *)
Theorem install_button_shown_when_installable a b events (br : PWA.Browser) :
  PWA.canInstall (PWA.getInstallationStatus br
                    (Page.manager (Page.run events (Page.start a b)))) = true →
  Page.installBtn (Page.run events (Page.start a b)) = Some "block".
Proof.
  assert (∀ v, (is_Some (PWA.deferredPrompt (Page.manager v)) →
                Page.installBtn v = Some "block") →
               is_Some (PWA.deferredPrompt (Page.manager (Page.run events v))) →
               Page.installBtn (Page.run events v) = Some "block") as Hrun.
  { unfold Page.run. induction events as [|ev events IH]; intros v Hinv; simpl; [done |].
    apply IH. by apply step_keeps_button_shown. }
  intros Hcan. apply Hrun.
  - unfold Page.start, Page.checkInstallStatus. destruct (a || b); by intros [? ?].
  - simpl in Hcan. by destruct (PWA.deferredPrompt _).
Qed.

Lemma install_button_shown_when_installable_witness :
  PWA.canInstall
    (PWA.getInstallationStatus Scenario.undecided
       (Page.manager
          (Page.run [Page.Window Page.AppInstalled;
                     Page.Window (Page.BeforeInstallPrompt Sample.accepting_prompt)]
             (Page.start false false)))) = true ∧
  Page.installBtn
    (Page.run [Page.Window Page.AppInstalled;
               Page.Window (Page.BeforeInstallPrompt Sample.accepting_prompt)]
       (Page.start false false)) = Some "block".
Proof.
  split; [reflexivity |].
  apply (install_button_shown_when_installable false false
           [Page.Window Page.AppInstalled;
            Page.Window (Page.BeforeInstallPrompt Sample.accepting_prompt)]
           Scenario.undecided).
  reflexivity.
Defined.


